(** * nepse_data_api: token descrambling, payload-id signing, session state

    A shallow embedding of the authentication core of [nepse_data_api]
    ([market.py] and [security.py]): the token parser
    [NepseTokenParser.parse_token_response], the session methods
    [Nepse.authenticate], [Nepse._get_auth_headers],
    [Nepse.get_market_status], [Nepse.refresh_auth_token] and
    [Nepse._get_floorsheet_payload_id], together with the cache they go
    through; then the data methods [get_market_summary],
    [get_top_gainers], [get_top_losers], [get_nepse_index],
    [get_price_volume], [get_stocks] and [clear_cache], the rest of
    [MyNepseSession], and [AsyncNepse.authenticate] with its GET.

    Python values are dynamically typed, so the values that travel through
    the session (JSON bodies, tokens, salts) live in one type [pyval].
    JSON numbers are integers in this model and strings are sequences of
    8-bit characters; bodies with fractional numbers lie outside it. *)

From Stdlib Require Import ZArith List String Ascii Bool Lia QArith.
From Stdlib Require Import DecimalString DecimalPos.
Import ListNotations.

Set Warnings "-register-all".

Local Open Scope string_scope.
Local Open Scope list_scope.
Local Open Scope Z_scope.

(** ** Python values, exceptions and results *)

Inductive pyval : Type :=
| PNone
| PBool (b : bool)
| PInt (z : Z)
| PStr (s : string)
| PList (l : list pyval)
| PDict (d : list (string * pyval)).

(** The exceptions the modelled code can meet.  [ValueError] and [TypeError]
    carry the variable part of their message: the rejected literal, or the
    name of the rejected type.  [InvalidSaltData c] is the
    [ValueError(f"Invalid salt data in response: {e}")] of the token parser,
    with [c] the exception [e] it was built from. *)
Inductive exn : Type :=
| KeyError (key : pyval)
| IndexError
| TypeError (what : string)
| ValueError (what : string)
| AttributeError (name : string)
| OverflowError
| ConnectionError
| HTTPError (status : Z)
| JSONDecodeError
| InvalidSaltData (cause : exn).

Inductive pyresult (A : Type) : Type :=
| Ok (a : A)
| Raise (e : exn).
Arguments Ok {A} a.
Arguments Raise {A} e.

(** [except (KeyError, ValueError, TypeError)]: [JSONDecodeError] and the
    parser's own error are subclasses of [ValueError]. *)
Definition is_key_value_type_error (e : exn) : bool :=
  match e with
  | KeyError _ | ValueError _ | TypeError _
  | JSONDecodeError | InvalidSaltData _ => true
  | _ => false
  end.

Definition type_name (v : pyval) : string :=
  match v with
  | PNone => "NoneType"
  | PBool _ => "bool"
  | PInt _ => "int"
  | PStr _ => "str"
  | PList _ => "list"
  | PDict _ => "dict"
  end.

(** [bool(v)], as used by [if v] and [not v]. *)
Definition py_truthy (v : pyval) : bool :=
  match v with
  | PNone => false
  | PBool b => b
  | PInt z => negb (z =? 0)
  | PStr s => negb (String.eqb s "")
  | PList l => match l with [] => false | _ => true end
  | PDict d => match d with [] => false | _ => true end
  end.

(** ** Sequences: slicing and indexing *)

Section Sequences.
Context {A : Type}.

(** The bound adjustment of [seq[i:j]]: a negative bound counts from the
    end, and every bound is clamped into [0, len]. *)
Definition adjust_bound (len i : Z) : Z :=
  if i <? 0 then Z.max (i + len) 0 else Z.min i len.

(** [s[i:j]] *)
Definition py_slice (s : list A) (i j : Z) : list A :=
  let len := Z.of_nat (List.length s) in
  skipn (Z.to_nat (adjust_bound len i))
        (firstn (Z.to_nat (adjust_bound len j)) s).

(** [s[i:]] *)
Definition py_slice_from (s : list A) (i : Z) : list A :=
  skipn (Z.to_nat (adjust_bound (Z.of_nat (List.length s)) i)) s.

(** [s[i]] *)
Definition py_index (s : list A) (i : Z) : pyresult A :=
  let len := Z.of_nat (List.length s) in
  let k := if i <? 0 then i + len else i in
  if (0 <=? k) && (k <? len)
  then match nth_error s (Z.to_nat k) with
       | Some a => Ok a
       | None => Raise IndexError
       end
  else Raise IndexError.

(** The six-segment concatenation of [parse_token_response]:
    [t[0:n] + t[n+1:l] + t[l+1:o] + t[o+1:p] + t[p+1:q] + t[q+1:]]. *)
Definition reassemble (t : list A) (n l o p q : Z) : list A :=
  py_slice t 0 n
  ++ py_slice t (n + 1) l
  ++ py_slice t (l + 1) o
  ++ py_slice t (o + 1) p
  ++ py_slice t (p + 1) q
  ++ py_slice_from t (q + 1).

(** The list [t] without the elements whose index is in [cuts]; indices
    count from [k].  This does not come from the source: it is what
    "the characters at the cut indices removed, in index order" means. *)
Fixpoint remove_at_from (k : Z) (cuts : list Z) (t : list A) : list A :=
  match t with
  | [] => []
  | a :: t' =>
      if existsb (Z.eqb k) cuts
      then remove_at_from (k + 1) cuts t'
      else a :: remove_at_from (k + 1) cuts t'
  end.

Definition remove_at (cuts : list Z) (t : list A) : list A :=
  remove_at_from 0 cuts t.
End Sequences.

(** The reassembly applied to a token value: slices of a [str] are [str],
    slices of a [list] are lists, nothing else can be sliced.  (Slicing a
    [dict] raises [TypeError] before CPython 3.12 and [KeyError] from 3.12
    on; no handler of the program tells the two apart.) *)
Definition descramble_token (tok : pyval) (n l o p q : Z) : pyresult pyval :=
  match tok with
  | PStr s =>
      Ok (PStr (string_of_list_ascii
                  (reassemble (list_ascii_of_string s) n l o p q)))
  | PList xs => Ok (PList (reassemble xs n l o p q))
  | PDict _ => Raise (TypeError "unhashable type: 'slice'")
  | v => Raise (TypeError (type_name v))
  end.

(** ** Conversions: [str()], [repr()] and [int()] *)

Definition decimal (z : Z) : string := NilZero.string_of_int (Z.to_int z).

Definition hex_digit (n : nat) : ascii :=
  nth n (list_ascii_of_string "0123456789abcdef") "0"%char.

Definition double_quote : ascii := ascii_of_nat 34.
Definition single_quote : ascii := ascii_of_nat 39.
Definition backslash : ascii := ascii_of_nat 92.

(** One character of [repr(str)], inside quotes [q]. *)
Definition repr_char (q c : ascii) : list ascii :=
  let n := nat_of_ascii c in
  if Ascii.eqb c q || Ascii.eqb c backslash then [backslash; c]
  else if Nat.eqb n 9 then [backslash; "t"%char]
  else if Nat.eqb n 10 then [backslash; "n"%char]
  else if Nat.eqb n 13 then [backslash; "r"%char]
  else if Nat.ltb n 32 || Nat.eqb n 127
          || (Nat.leb 128 n && Nat.leb n 160) || Nat.eqb n 173
       then [backslash; "x"%char; hex_digit (Nat.div n 16);
             hex_digit (Nat.modulo n 16)]
  else [c].

(** [repr(s)] for a string: double quotes only when [s] has a single quote
    and no double quote. *)
Definition repr_str (s : string) : string :=
  let cs := list_ascii_of_string s in
  let q := if existsb (Ascii.eqb single_quote) cs
              && negb (existsb (Ascii.eqb double_quote) cs)
           then double_quote else single_quote in
  string_of_list_ascii ([q] ++ flat_map (repr_char q) cs ++ [q]).

Fixpoint join (sep : string) (l : list string) : string :=
  match l with
  | [] => ""
  | [x] => x
  | x :: r => (x ++ sep ++ join sep r)%string
  end.

Fixpoint py_repr (v : pyval) : string :=
  match v with
  | PNone => "None"
  | PBool true => "True"
  | PBool false => "False"
  | PInt z => decimal z
  | PStr s => repr_str s
  | PList l => ("[" ++ join ", " (map py_repr l) ++ "]")%string
  | PDict d =>
      ("{" ++ join ", "
                (map (fun kv => match kv with
                                | (k, x) => (repr_str k ++ ": " ++ py_repr x)%string
                                end) d)
           ++ "}")%string
  end.

(** [str(v)], which is what an f-string field [{v}] renders. *)
Definition py_str (v : pyval) : string :=
  match v with
  | PStr s => s
  | _ => py_repr v
  end.

(** White space for [int()]: the characters [str.isspace] accepts. *)
Definition is_space (c : ascii) : bool :=
  let n := nat_of_ascii c in
  (Nat.leb 9 n && Nat.leb n 13) || (Nat.leb 28 n && Nat.leb n 32)
  || Nat.eqb n 133 || Nat.eqb n 160.

Fixpoint lstrip (cs : list ascii) : list ascii :=
  match cs with
  | c :: r => if is_space c then lstrip r else cs
  | [] => []
  end.

Definition strip (cs : list ascii) : list ascii :=
  rev (lstrip (rev (lstrip cs))).

Definition digit_value (c : ascii) : option Z :=
  let n := nat_of_ascii c in
  if Nat.leb 48 n && Nat.leb n 57 then Some (Z.of_nat n - 48) else None.

(** Digits with single underscores between them.  [after_digit] tells
    whether the previous character was a digit; the result is the value
    and the number of digits read. *)
Fixpoint read_digits (after_digit : bool) (acc : Z) (count : nat)
         (cs : list ascii) : option (Z * nat) :=
  match cs with
  | [] => if after_digit then Some (acc, count) else None
  | c :: r =>
      match digit_value c with
      | Some d => read_digits true (10 * acc + d) (S count) r
      | None =>
          if Ascii.eqb c "_"%char && after_digit
          then read_digits false acc count r
          else None
      end
  end.

(** [sys.int_info.default_max_str_digits] *)
Definition max_str_digits : nat := 4300.

(** [int(s)] for a string, base 10. *)
Definition int_of_str (s : string) : pyresult Z :=
  let body := strip (list_ascii_of_string s) in
  let '(negative, digits) :=
    match body with
    | c :: r =>
        if Ascii.eqb c "-"%char then (true, r)
        else if Ascii.eqb c "+"%char then (false, r)
        else (false, body)
    | [] => (false, [])
    end in
  match read_digits false 0 0 digits with
  | Some (z, count) =>
      if Nat.ltb max_str_digits count
      then Raise (ValueError "Exceeds the limit for integer string conversion")
      else Ok (if negative then - z else z)
  | None => Raise (ValueError s)
  end.

(** [int(v)] *)
Definition py_int (v : pyval) : pyresult Z :=
  match v with
  | PInt z => Ok z
  | PBool b => Ok (if b then 1 else 0)
  | PStr s => int_of_str s
  | _ => Raise (TypeError (type_name v))
  end.

(** ** Subscripts, membership and arithmetic *)

(** A [dict] with string keys, in insertion order: [d.get(k)],
    [d[k] = x] and [del d[k]]. *)
Fixpoint dict_get {V} (d : list (string * V)) (k : string) : option V :=
  match d with
  | [] => None
  | (k', x) :: r => if String.eqb k k' then Some x else dict_get r k
  end.

Fixpoint dict_set {V} (d : list (string * V)) (k : string) (x : V)
  : list (string * V) :=
  match d with
  | [] => [(k, x)]
  | (k', y) :: r =>
      if String.eqb k k' then (k, x) :: r else (k', y) :: dict_set r k x
  end.

Fixpoint dict_del {V} (d : list (string * V)) (k : string)
  : list (string * V) :=
  match d with
  | [] => []
  | (k', y) :: r =>
      if String.eqb k k' then r else (k', y) :: dict_del r k
  end.

(** [v[k]] for a string key [k]. *)
Definition py_getitem_str (v : pyval) (k : string) : pyresult pyval :=
  match v with
  | PDict d =>
      match dict_get d k with
      | Some x => Ok x
      | None => Raise (KeyError (PStr k))
      end
  | _ => Raise (TypeError (type_name v))
  end.

(** [v[i]] for an integer [i]. *)
Definition py_getitem_int (v : pyval) (i : Z) : pyresult pyval :=
  match v with
  | PList l => py_index l i
  | PStr s =>
      match py_index (list_ascii_of_string s) i with
      | Ok c => Ok (PStr (String c EmptyString))
      | Raise e => Raise e
      end
  | PDict _ => Raise (KeyError (PInt i))
  | _ => Raise (TypeError (type_name v))
  end.

(** [v.get(k, default)]: only a [dict] has the method. *)
Definition py_get (v : pyval) (k : string) (default : pyval) : pyresult pyval :=
  match v with
  | PDict d =>
      Ok (match dict_get d k with Some x => x | None => default end)
  | _ => Raise (AttributeError "get")
  end.

Fixpoint is_prefix (p s : list ascii) : bool :=
  match p, s with
  | [], _ => true
  | _ :: _, [] => false
  | a :: p', b :: s' => Ascii.eqb a b && is_prefix p' s'
  end.

Fixpoint is_substring (p s : list ascii) : bool :=
  is_prefix p s ||
  match s with
  | [] => false
  | _ :: s' => is_substring p s'
  end.

(** [k in v] for a string [k]: a key of a [dict], an element of a [list],
    a substring of a [str]. *)
Definition py_contains (v : pyval) (k : string) : pyresult bool :=
  match v with
  | PDict d => Ok (match dict_get d k with Some _ => true | None => false end)
  | PList l =>
      Ok (existsb (fun x => match x with
                            | PStr s => String.eqb s k
                            | _ => false
                            end) l)
  | PStr s => Ok (is_substring (list_ascii_of_string k) (list_ascii_of_string s))
  | _ => Raise (TypeError (type_name v))
  end.

Definition as_number (v : pyval) : option Z :=
  match v with
  | PInt z => Some z
  | PBool b => Some (if b then 1 else 0)
  | _ => None
  end.

Fixpoint repeat_str (n : nat) (s : string) : string :=
  match n with
  | O => ""
  | S n' => (s ++ repeat_str n' s)%string
  end.

(** [v * k] for an integer [k]: a product of numbers, or a sequence
    repeated. *)
Definition py_mul_int (v : pyval) (k : Z) : pyresult pyval :=
  match v with
  | PStr s => Ok (PStr (repeat_str (Z.to_nat k) s))
  | PList l => Ok (PList (List.concat (repeat l (Z.to_nat k))))
  | _ =>
      match as_number v with
      | Some z => Ok (PInt (z * k))
      | None => Raise (TypeError (type_name v))
      end
  end.

(** [z + v] and [z - v] for an integer [z] on the left. *)
Definition py_int_add (z : Z) (v : pyval) : pyresult Z :=
  match as_number v with
  | Some x => Ok (z + x)
  | None => Raise (TypeError (type_name v))
  end.

Definition py_int_sub (z : Z) (v : pyval) : pyresult Z :=
  match as_number v with
  | Some x => Ok (z - x)
  | None => Raise (TypeError (type_name v))
  end.

(** ** [int(x / 1000)]

    [x / 1000] is a true division: for an integer [x] it is the double
    nearest to the exact quotient (ties to even), or [OverflowError] when
    that is beyond the doubles; [int()] then truncates it. *)

(** The integer nearest to [a / b], ties to even ([0 <= a], [0 < b]). *)
Definition round_half_even (a b : Z) : Z :=
  let q := a / b in
  let r := a mod b in
  if 2 * r <? b then q
  else if b <? 2 * r then q + 1
  else if Z.even q then q else q + 1.

Definition int_of_truediv_1000 (x : Z) : pyresult Z :=
  if x =? 0 then Ok 0 else
  let b := 1000 in
  let a := Z.abs x in
  (* [k] is the binary exponent of the quotient: 2^k <= a/b < 2^(k+1) *)
  let k0 := Z.log2 a - Z.log2 b in
  let reaches :=
    if 0 <=? k0 then b * 2 ^ k0 <=? a else b <=? a * 2 ^ (- k0) in
  let k := if reaches then k0 else k0 - 1 in
  (* 53 significant bits: the quotient rounds to m * 2^e *)
  let e := k - 52 in
  let m := if 0 <=? e then round_half_even a (b * 2 ^ e)
           else round_half_even (a * 2 ^ (- e)) b in
  if (0 <=? e) && (2 ^ 1024 <=? m * 2 ^ e) then Raise OverflowError
  else
    let t := if 0 <=? e then m * 2 ^ e else m / 2 ^ (- e) in
    Ok (Z.sgn x * t).

(** [int(v / 1000)] for a value [v]. *)
Definition py_int_of_truediv_1000 (v : pyval) : pyresult Z :=
  match as_number v with
  | Some x => int_of_truediv_1000 x
  | None => Raise (TypeError (type_name v))
  end.

(** ** The world outside the process

    Every interaction with the outside is recorded in a history, oldest
    event first.  The outside is a [World]: what the network answers to a
    request and what the clock shows, each as a function of the history so
    far, so that answers may change from one call to the next. *)

Inductive http_method : Type := GET | POST.

Record request : Type := {
  req_method : http_method;
  req_url : string;
  req_headers : list (string * string);
  req_json : option pyval
}.

(** [body = None] is a body that [response.json()] cannot decode. *)
Record response : Type := {
  status_code : Z;
  body : option pyval
}.

(** [EvAuthenticate] marks an entry into an [authenticate()] method;
    [EvPrint text e] is a [print] of [text] followed by the exception [e],
    if any. *)
Inductive event : Type :=
| EvAuthenticate
| EvRequest (r : request)
| EvInvocate (name : string) (args : list Z)
| EvClock
| EvPrint (text : string) (e : option exn).

Record World : Type := {
  net : list event -> request -> pyresult response;
  clock : list event -> Q
}.

(** ** The monad of methods

    A method runs on its object and the history and gives a result or an
    exception, with the object and history as they are at that point: what
    was assigned before an exception stays assigned. *)

Record State (O : Type) : Type := {
  self : O;
  history : list event
}.
Arguments self {O} s.
Arguments history {O} s.
Arguments Build_State {O} self history.

Definition M (O A : Type) : Type := State O -> pyresult A * State O.

Section Monad.
Context {O : Type}.

Definition ret {A} (a : A) : M O A := fun st => (Ok a, st).

Definition bind {A B} (m : M O A) (k : A -> M O B) : M O B :=
  fun st =>
    match m st with
    | (Ok a, st') => k a st'
    | (Raise e, st') => (Raise e, st')
    end.

Definition raise {A} (e : exn) : M O A := fun st => (Raise e, st).

(** [try: m  except <sel> as e: h e] *)
Definition try_except {A} (m : M O A) (sel : exn -> bool)
           (h : exn -> M O A) : M O A :=
  fun st =>
    match m st with
    | (Ok a, st') => (Ok a, st')
    | (Raise e, st') => if sel e then h e st' else (Raise e, st')
    end.

Definition lift {A} (r : pyresult A) : M O A := fun st => (r, st).

Definition get_self : M O O := fun st => (Ok (self st), st).

Definition modify_self (f : O -> O) : M O unit :=
  fun st => (Ok tt, {| self := f (self st); history := history st |}).

Definition log (ev : event) : M O unit :=
  fun st => (Ok tt, {| self := self st; history := history st ++ [ev] |}).
End Monad.

Notation "x <- m ;; k" := (bind m (fun x => k))
  (at level 61, m at next level, right associativity).
Notation "m ;;; k" := (bind m (fun _ => k))
  (at level 61, right associativity).

(** Sequencing of results without state. *)
Definition rbind {A B} (r : pyresult A) (k : A -> pyresult B) : pyresult B :=
  match r with
  | Ok a => k a
  | Raise e => Raise e
  end.

Definition any_exception (e : exn) : bool := true.

(** [int(t)] for a clock reading: truncation. *)
Definition int_of_time (t : Q) : Z := Z.quot (Qnum t) (Z.pos (Qden t)).

Definition is_some {A} (x : option A) : bool :=
  match x with Some _ => true | None => false end.

Definition is_none (v : pyval) : bool :=
  match v with PNone => true | _ => false end.

Section Transport.
Variable W : World.
Context {O : Type}.

(** [time.time()] *)
Definition time_time : M O Q :=
  fun st =>
    (Ok (clock W (history st)),
     {| self := self st; history := history st ++ [EvClock] |}).

(** [self.session.get(...)] and [self.session.post(...)] *)
Definition session_request (r : request) : M O response :=
  fun st =>
    (net W (history st) r,
     {| self := self st; history := history st ++ [EvRequest r] |}).

(** [response.raise_for_status()] *)
Definition raise_for_status (r : response) : M O unit :=
  if (400 <=? status_code r) && (status_code r <? 600)
  then raise (HTTPError (status_code r))
  else ret tt.

(** [response.json()] *)
Definition json (r : response) : M O pyval :=
  match body r with
  | Some v => ret v
  | None => raise JSONDecodeError
  end.
End Transport.

(** ** [NepseTokenParser]

    The two copies of the class, in [market.py] and in [security.py], have
    the same [parse_token_response]. *)

(** The loaded transform module behind [runtime.invocate(wasm_module, ...)]:
    a call by export name on a list of integers, giving the list of
    results or raising. *)
Record NepseTokenParser : Type := {
  invocate : string -> list Z -> pyresult (list Z)
}.

(** [self.runtime.invocate(self.wasm_module, name, args)[0]] *)
Definition invocate_first (parser : NepseTokenParser) (name : string)
           (args : list Z) : pyresult Z :=
  rbind (invocate parser name args) (fun results => py_index results 0).

(** [int(response_data[field])] *)
Definition salt_of (response_data : pyval) (field : string) : pyresult Z :=
  rbind (py_getitem_str response_data field) py_int.

Section Parser.
Context {O : Type}.

Definition invocate0 (parser : NepseTokenParser) (name : string)
           (args : list Z) : M O Z :=
  log (EvInvocate name args) ;;;
  lift (invocate_first parser name args).

Definition parse_token_response (parser : NepseTokenParser)
           (response_data : pyval) : M O (pyval * pyval * list Z) :=
  salts <-
    try_except
      (s1 <- lift (salt_of response_data "salt1") ;;
       s2 <- lift (salt_of response_data "salt2") ;;
       s3 <- lift (salt_of response_data "salt3") ;;
       s4 <- lift (salt_of response_data "salt4") ;;
       s5 <- lift (salt_of response_data "salt5") ;;
       ret (s1, s2, s3, s4, s5))
      is_key_value_type_error
      (fun e => raise (InvalidSaltData e)) ;;
  let '(s1, s2, s3, s4, s5) := salts in
  n <- invocate0 parser "cdx" [s1; s2; s3; s4; s5] ;;
  l_index <- invocate0 parser "rdx" [s1; s2; s4; s3; s5] ;;
  o <- invocate0 parser "bdx" [s1; s2; s4; s3; s5] ;;
  p <- invocate0 parser "ndx" [s1; s2; s4; s3; s5] ;;
  q <- invocate0 parser "mdx" [s1; s2; s4; s3; s5] ;;
  let salts_reversed := [s2; s1; s3; s5; s4] in
  a <- invocate0 parser "cdx" salts_reversed ;;
  b <- invocate0 parser "rdx" [s2; s1; s3; s4; s5] ;;
  c <- invocate0 parser "bdx" [s2; s1; s4; s3; s5] ;;
  d <- invocate0 parser "ndx" [s2; s1; s4; s3; s5] ;;
  e <- invocate0 parser "mdx" [s2; s1; s4; s3; s5] ;;
  access_token <- lift (py_getitem_str response_data "accessToken") ;;
  refresh_token <- lift (py_getitem_str response_data "refreshToken") ;;
  parsed_access_token <-
    lift (descramble_token access_token n l_index o p q) ;;
  parsed_refresh_token <-
    lift (descramble_token refresh_token a b c d e) ;;
  ret (parsed_access_token, parsed_refresh_token, [s1; s2; s3; s4; s5]).
End Parser.

Definition BASE_URL : string := "https://www.nepalstock.com.np".

Definition prove_request : request :=
  {| req_method := GET;
     req_url := (BASE_URL ++ "/api/authenticate/prove")%string;
     req_headers := []; req_json := None |}.

(** ** [market.py]: [CacheManager] and [Nepse] *)

Record CacheManager : Type := {
  _cache : list (string * (pyval * Q));
  default_ttl : Z
}.

Record Nepse : Type := {
  token_parser : NepseTokenParser;
  cache : option CacheManager;
  access_token : pyval;
  refresh_token : pyval;
  salts : pyval;
  token_timestamp : Z
}.

Definition set_credentials (a r s : pyval) (o : Nepse) : Nepse :=
  {| token_parser := token_parser o; cache := cache o;
     access_token := a; refresh_token := r; salts := s;
     token_timestamp := token_timestamp o |}.

Definition set_access_token (a : pyval) (o : Nepse) : Nepse :=
  {| token_parser := token_parser o; cache := cache o;
     access_token := a; refresh_token := refresh_token o; salts := salts o;
     token_timestamp := token_timestamp o |}.

Definition set_salts (s : pyval) (o : Nepse) : Nepse :=
  {| token_parser := token_parser o; cache := cache o;
     access_token := access_token o; refresh_token := refresh_token o;
     salts := s; token_timestamp := token_timestamp o |}.

Definition set_token_timestamp (t : Z) (o : Nepse) : Nepse :=
  {| token_parser := token_parser o; cache := cache o;
     access_token := access_token o; refresh_token := refresh_token o;
     salts := salts o; token_timestamp := t |}.

Definition set_cache (c : option CacheManager) (o : Nepse) : Nepse :=
  {| token_parser := token_parser o; cache := c;
     access_token := access_token o; refresh_token := refresh_token o;
     salts := salts o; token_timestamp := token_timestamp o |}.

Definition USER_AGENT : string :=
  "Mozilla/5.0 (X11; Linux x86_64) AppleWebKit/537.36".

Definition DUMMY_DATA : list Z :=
  [147; 117; 239; 143; 157; 312; 161; 612; 512; 804; 411; 527; 170; 511; 421; 667; 764; 621; 301; 106;
   133; 793; 411; 511; 312; 423; 344; 346; 653; 758; 342; 222; 236; 811; 711; 611; 122; 447; 128; 199;
   183; 135; 489; 703; 800; 745; 152; 863; 134; 211; 142; 564; 375; 793; 212; 153; 138; 153; 648; 611;
   151; 649; 318; 143; 117; 756; 119; 141; 717; 113; 112; 146; 162; 660; 693; 261; 362; 354; 251; 641;
   157; 178; 631; 192; 734; 445; 192; 883; 187; 122; 591; 731; 852; 384; 565; 596; 451; 772; 624; 691].

Definition market_open_url : string :=
  (BASE_URL ++ "/api/nots/nepse-data/market-open")%string.

Definition refresh_token_url : string :=
  (BASE_URL ++ "/api/authenticate/refresh-token")%string.

Section Methods.
Variable W : World.

(** *** [CacheManager.get] and [CacheManager.set], on [self.cache] *)

Definition CacheManager_get (key : string) : M Nepse pyval :=
  o <- get_self ;;
  match cache o with
  | None => raise (AttributeError "get")
  | Some c =>
      match dict_get (_cache c) key with
      | Some (value, expires_at) =>
          now <- time_time W ;;
          if negb (Qle_bool expires_at now) then ret value
          else
            modify_self (set_cache
              (Some {| _cache := dict_del (_cache c) key;
                       default_ttl := default_ttl c |})) ;;;
            ret PNone
      | None => ret PNone
      end
  end.

Definition CacheManager_set (key : string) (value : pyval) (ttl : option Z)
  : M Nepse unit :=
  o <- get_self ;;
  match cache o with
  | None => raise (AttributeError "set")
  | Some c =>
      let ttl' := match ttl with
                  | Some t => if t =? 0 then default_ttl c else t
                  | None => default_ttl c
                  end in
      now <- time_time W ;;
      let expires_at := Qplus now (inject_Z ttl') in
      modify_self (set_cache
        (Some {| _cache := dict_set (_cache c) key (value, expires_at);
                 default_ttl := default_ttl c |}))
  end.

(** *** [Nepse] *)

Definition authenticate : M Nepse unit :=
  log EvAuthenticate ;;;
  response <- session_request W prove_request ;;
  raise_for_status response ;;;
  data <- json response ;;
  o <- get_self ;;
  creds <- parse_token_response (token_parser o) data ;;
  let '(a, r, s) := creds in
  modify_self (set_credentials a r (PList (map PInt s))) ;;;
  now <- time_time W ;;
  modify_self (set_token_timestamp (int_of_time now)).

(** [Nepse(cache_ttl, enable_cache)]: the fresh object, then
    [__init__]'s call of [authenticate]. *)
Definition new_Nepse (parser : NepseTokenParser) (cache_ttl : Z)
           (enable_cache : bool) : Nepse :=
  {| token_parser := parser;
     cache := if enable_cache
              then Some {| _cache := []; default_ttl := cache_ttl |}
              else None;
     access_token := PNone; refresh_token := PNone; salts := PNone;
     token_timestamp := 0 |}.

Definition Nepse__init__ (parser : NepseTokenParser) (cache_ttl : Z)
           (enable_cache : bool) (h : list event)
  : pyresult unit * State Nepse :=
  authenticate {| self := new_Nepse parser cache_ttl enable_cache;
                  history := h |}.

Definition _get_auth_headers : M Nepse (list (string * string)) :=
  o <- get_self ;;
  (if negb (py_truthy (access_token o)) then authenticate else ret tt) ;;;
  o <- get_self ;;
  ret [("Authorization", ("Salter " ++ py_str (access_token o))%string);
       ("Content-Type", "application/json");
       ("User-Agent", USER_AGENT)].

(** [self.session.get(url, headers=self._get_auth_headers())],
    [raise_for_status()] and [json()] *)
Definition fetch (url : string) : M Nepse pyval :=
  headers <- _get_auth_headers ;;
  response <- session_request W
    {| req_method := GET; req_url := url; req_headers := headers;
       req_json := None |} ;;
  raise_for_status response ;;;
  json response.

Definition _cached_get (cache_key url : string) (ttl : option Z)
  : M Nepse pyval :=
  o <- get_self ;;
  cached <- (if is_some (cache o) then CacheManager_get cache_key
             else ret PNone) ;;
  if negb (is_none cached) then ret cached
  else
    data <- fetch url ;;
    o <- get_self ;;
    (if is_some (cache o) then CacheManager_set cache_key data ttl
     else ret tt) ;;;
    ret data.

Definition get_market_status (use_cache : bool) : M Nepse pyval :=
  o <- get_self ;;
  if use_cache && is_some (cache o)
  then _cached_get "market_status" market_open_url (Some 60)
  else fetch market_open_url.

(** The request [refresh_auth_token] posts from a session [o] that
    holds an access token. *)
Definition refresh_payload (o : Nepse) : pyval :=
  if py_truthy (refresh_token o)
  then PDict [("refreshToken", refresh_token o)]
  else PDict [].

Definition refresh_auth_token : M Nepse pyval :=
  try_except
    (o <- get_self ;;
     let payload := refresh_payload o in
     headers <- _get_auth_headers ;;
     response <- session_request W
       {| req_method := POST; req_url := refresh_token_url;
          req_headers := headers; req_json := Some payload |} ;;
     raise_for_status response ;;;
     token_data <- json response ;;
     has_access <- (if py_truthy token_data
                    then lift (py_contains token_data "accessToken")
                    else ret false) ;;
     (if has_access : bool then
        a <- lift (py_getitem_str token_data "accessToken") ;;
        modify_self (set_access_token a) ;;;
        has_time <- lift (py_contains token_data "serverTime") ;;
        (if has_time : bool then
           t <- lift (py_getitem_str token_data "serverTime") ;;
           ts <- lift (py_int_of_truediv_1000 t) ;;
           modify_self (set_token_timestamp ts)
         else ret tt) ;;;
        has_salt <- lift (py_contains token_data "salt") ;;
        (if has_salt : bool then
           s <- lift (py_getitem_str token_data "salt") ;;
           modify_self (set_salts s)
         else ret tt)
      else ret tt) ;;;
     ret token_data)
    any_exception
    (fun e =>
       log (EvPrint "Error refreshing token: " (Some e)) ;;;
       ret (PDict [])).

(** [date_obj] enters through its [day]; [company_id] is not used by the
    method. *)
Definition _get_floorsheet_payload_id (company_id : Z) (day : Z)
  : M Nepse Z :=
  status <- get_market_status true ;;
  id <- lift (py_get status "id" (PInt 147)) ;;
  dummy_id <- lift (py_int id) ;;
  let val :=
    match py_index DUMMY_DATA
                   (dummy_id mod Z.of_nat (List.length DUMMY_DATA)) with
    | Ok v => v
    | Raise _ => 147
    end in
  let e := val + dummy_id + 2 * day in
  let salt_index := if e mod 10 <? 4 then 1 else 3 in
  o <- get_self ;;
  (if negb (py_truthy (salts o)) then authenticate else ret tt) ;;;
  o <- get_self ;;
  x <- lift (py_getitem_int (salts o) salt_index) ;;
  prod <- lift (py_mul_int x day) ;;
  sum <- lift (py_int_add e prod) ;;
  y <- lift (py_getitem_int (salts o) (salt_index - 1)) ;;
  lift (py_int_sub sum y).
End Methods.

(** ** [market.py]: more of [CacheManager] and [Nepse] *)

(** [data[:limit]] *)
Definition py_slice_to (data : pyval) (limit : Z) : pyresult pyval :=
  match data with
  | PStr s =>
      Ok (PStr (string_of_list_ascii
                  (py_slice (list_ascii_of_string s) 0 limit)))
  | PList xs => Ok (PList (py_slice xs 0 limit))
  | PDict _ => Raise (TypeError "unhashable type: 'slice'")
  | v => Raise (TypeError (type_name v))
  end.

(** [data[:limit] if limit else data], for [limit: Optional[int]] *)
Definition limited (data : pyval) (limit : option Z) : pyresult pyval :=
  match limit with
  | Some k => if k =? 0 then Ok data else py_slice_to data k
  | None => Ok data
  end.

Definition market_summary_url : string :=
  (BASE_URL ++ "/api/nots/market-summary/")%string.
Definition top_gainer_url : string :=
  (BASE_URL ++ "/api/nots/top-ten/top-gainer?all=false")%string.
Definition top_loser_url : string :=
  (BASE_URL ++ "/api/nots/top-ten/top-loser?all=false")%string.
Definition nepse_index_url : string :=
  (BASE_URL ++ "/api/nots/nepse-index")%string.
Definition lives_market_url : string :=
  (BASE_URL ++ "/api/nots/lives-market")%string.
Definition price_volume_url : string :=
  (BASE_URL ++ "/api/nots/securityDailyTradeStat/58")%string.

Section MoreMethods.
Variable W : World.

(** [CacheManager.clear], on [self.cache] *)
Definition CacheManager_clear : M Nepse unit :=
  o <- get_self ;;
  match cache o with
  | None => raise (AttributeError "clear")
  | Some c =>
      modify_self (set_cache
        (Some {| _cache := []; default_ttl := default_ttl c |}))
  end.

Definition clear_cache : M Nepse unit :=
  o <- get_self ;;
  if is_some (cache o) then CacheManager_clear else ret tt.

Definition get_market_summary (use_cache : bool) : M Nepse pyval :=
  o <- get_self ;;
  if use_cache && is_some (cache o)
  then _cached_get W "market_summary" market_summary_url None
  else fetch W market_summary_url.

(** [self.session.get(url, headers=self._get_auth_headers())] and
    [json()], without [raise_for_status()] *)
Definition fetch_unchecked (url : string) : M Nepse pyval :=
  headers <- _get_auth_headers W ;;
  response <- session_request W
    {| req_method := GET; req_url := url; req_headers := headers;
       req_json := None |} ;;
  json response.

Definition get_top_gainers (limit : option Z) (use_cache : bool)
  : M Nepse pyval :=
  o <- get_self ;;
  data <- (if use_cache && is_some (cache o)
           then _cached_get W "top_gainers" top_gainer_url None
           else fetch_unchecked top_gainer_url) ;;
  lift (limited data limit).

Definition get_top_losers (limit : option Z) (use_cache : bool)
  : M Nepse pyval :=
  o <- get_self ;;
  data <- (if use_cache && is_some (cache o)
           then _cached_get W "top_losers" top_loser_url None
           else fetch_unchecked top_loser_url) ;;
  lift (limited data limit).

Definition get_nepse_index (use_cache : bool) : M Nepse pyval :=
  o <- get_self ;;
  if use_cache && is_some (cache o)
  then _cached_get W "nepse_index" nepse_index_url None
  else
    try_except (fetch W nepse_index_url)
      any_exception
      (fun e =>
         log (EvPrint "Error fetching NEPSE index: " (Some e)) ;;;
         ret (PDict [])).

Definition get_price_volume (use_cache : bool) : M Nepse pyval :=
  let ttl := if use_cache then 15 else 0 in
  o <- get_self ;;
  if use_cache && is_some (cache o)
  then _cached_get W "price_volume" price_volume_url (Some ttl)
  else
    try_except (fetch W price_volume_url)
      any_exception
      (fun e =>
         log (EvPrint "Error fetching price volume: " (Some e)) ;;;
         ret (PList [])).

(** [get_stocks]: the historical branch goes to [get_today_price], which
    is taken as given. *)
Variable get_today_price : string -> bool -> M Nepse pyval.

Definition get_stocks (date : option string) (use_cache : bool)
  : M Nepse pyval :=
  let live :=
    o <- get_self ;;
    cached <- (if use_cache && is_some (cache o)
               then CacheManager_get W "live_market"
               else ret PNone) ;;
    if negb (is_none cached) then ret cached
    else
      try_except
        (stocks <- fetch W lives_market_url ;;
         o <- get_self ;;
         (if is_some (cache o)
          then CacheManager_set W "live_market" stocks (Some 15)
          else ret tt) ;;;
         ret stocks)
        any_exception
        (fun e => log (EvPrint "Error: " (Some e)) ;;; ret (PList [])) in
  match date with
  | None => live
  | Some d => if String.eqb d "" then live else get_today_price d use_cache
  end.

End MoreMethods.

(** ** [security.py]: [MyNepseSession] *)

Module MyNepseSession.

Record t : Type := {
  token_parser : NepseTokenParser;
  access_token : pyval;
  refresh_token : pyval;
  salts : pyval;
  token_timestamp : Z
}.

Definition USER_AGENT : string :=
  "Mozilla/5.0 (X11; Linux x86_64) AppleWebKit/537.36 (KHTML, like Gecko) Chrome/133.0.0.0 Safari/537.36".

Definition set_credentials (a r s : pyval) (o : t) : t :=
  {| token_parser := token_parser o;
     access_token := a; refresh_token := r; salts := s;
     token_timestamp := token_timestamp o |}.

Definition set_token_timestamp (ts : Z) (o : t) : t :=
  {| token_parser := token_parser o;
     access_token := access_token o; refresh_token := refresh_token o;
     salts := salts o; token_timestamp := ts |}.

Section Methods.
Variable W : World.

Definition authenticate : M t unit :=
  log EvAuthenticate ;;;
  log (EvPrint ("Authenticating with " ++ req_url prove_request ++ "...")
               None) ;;;
  response <- session_request W prove_request ;;
  raise_for_status response ;;;
  data <- json response ;;
  o <- get_self ;;
  creds <- parse_token_response (token_parser o) data ;;
  let '(a, r, s) := creds in
  modify_self (set_credentials a r (PList (map PInt s))) ;;;
  now <- time_time W ;;
  modify_self (set_token_timestamp (int_of_time now)) ;;;
  log (EvPrint "Authentication successful! Token descrambled." None).

Definition _get_auth_headers : M t (list (string * string)) :=
  o <- get_self ;;
  (if negb (py_truthy (access_token o)) then authenticate else ret tt) ;;;
  o <- get_self ;;
  ret [("Authorization", ("Salter " ++ py_str (access_token o))%string);
       ("Content-Type", "application/json");
       ("User-Agent", USER_AGENT)].
(** [self.session.get(url, headers=self._get_auth_headers())] and
    [response.json()]; the status is not looked at. *)
Definition get (url : string) : M t pyval :=
  headers <- _get_auth_headers ;;
  response <- session_request W
    {| req_method := GET; req_url := url; req_headers := headers;
       req_json := None |} ;;
  json response.

Definition get_market_status : M t pyval :=
  get (BASE_URL ++ "/api/nots/nepse-data/market-open")%string.

Definition get_market_summary : M t pyval :=
  get (BASE_URL ++ "/api/nots/market-summary/")%string.

Definition get_top_gainers : M t pyval :=
  get (BASE_URL ++ "/api/nots/top-ten/top-gainer")%string.

(** [date.today().day] reads the clock; the method does not use it. *)
Definition _get_dummy_id : M t pyval :=
  status <- get_market_status ;;
  base_id <- lift (py_getitem_str status "id") ;;
  time_time W ;;;
  ret base_id.

(** [MyNepseSession()]: the fresh object, then [__init__]'s call of
    [authenticate]. *)
Definition new_session (parser : NepseTokenParser) : t :=
  {| token_parser := parser;
     access_token := PNone; refresh_token := PNone; salts := PNone;
     token_timestamp := 0 |}.

Definition MyNepseSession__init__ (parser : NepseTokenParser)
           (h : list event) : pyresult unit * State t :=
  authenticate {| self := new_session parser; history := h |}.
End Methods.

End MyNepseSession.

(** ** [market.py]: [AsyncNepse]

    The coroutines are modelled as they run when awaited one after the
    other; every method opens its own client session, which sends no
    headers of its own. *)

Module AsyncNepse.

Record t : Type := {
  token_parser : NepseTokenParser;
  cache : CacheManager;
  access_token : pyval;
  salts : pyval
}.

Definition set_credentials (a s : pyval) (o : t) : t :=
  {| token_parser := token_parser o; cache := cache o;
     access_token := a; salts := s |}.


Section Methods.
Variable W : World.

Definition authenticate : M t unit :=
  log EvAuthenticate ;;;
  response <- session_request W prove_request ;;
  data <- json response ;;
  o <- get_self ;;
  creds <- parse_token_response (token_parser o) data ;;
  let '(a, _, s) := creds in
  modify_self (set_credentials a (PList (map PInt s))).

(** [if not self.access_token: await self.authenticate()], the
    [Authorization] header alone, a GET and [response.json()] *)
Definition get (url : string) : M t pyval :=
  o <- get_self ;;
  (if negb (py_truthy (access_token o)) then authenticate else ret tt) ;;;
  o <- get_self ;;
  let headers :=
    [("Authorization", ("Salter " ++ py_str (access_token o))%string)] in
  response <- session_request W
    {| req_method := GET; req_url := url; req_headers := headers;
       req_json := None |} ;;
  json response.

Definition get_market_status : M t pyval := get market_open_url.

Definition get_market_summary : M t pyval := get market_summary_url.

Definition get_live_market : M t pyval := get lives_market_url.

End Methods.

End AsyncNepse.


(** ** Definitions used to state the properties *)

(** A state with further events appended to its history. *)
Definition extend {O} (st : State O) (evs : list event) : State O :=
  {| self := self st; history := history st ++ evs |}.

(** What [parse_token_response] returns and which events it adds, read off
    a run from the empty history on an object without fields. *)
Definition parse_outcome (parser : NepseTokenParser) (response_data : pyval)
  : pyresult (pyval * pyval * list Z) * list event :=
  let r := parse_token_response parser response_data
             {| self := tt; history := [] |} in
  (fst r, history (snd r)).

(** The characters of a decimal numeral. *)
Definition digits_of (d : Decimal.uint) : list ascii :=
  list_ascii_of_string (NilEmpty.string_of_uint d).

(** A [dict] has each key once. *)
Definition unique_keys {V} (d : list (string * V)) : Prop :=
  NoDup (map fst d).

(** The lifetime [CacheManager.set] gives an entry: [ttl or default_ttl]. *)
Definition lifetime (c : CacheManager) (ttl : option Z) : Z :=
  match ttl with
  | Some t => if t =? 0 then default_ttl c else t
  | None => default_ttl c
  end.

(** The GET that a session holding an access token sends to [url]. *)
Definition get_request (o : Nepse) (url : string) : request :=
  {| req_method := GET; req_url := url;
     req_headers :=
       [("Authorization", ("Salter " ++ py_str (access_token o))%string);
        ("Content-Type", "application/json");
        ("User-Agent", USER_AGENT)];
     req_json := None |}.

(** What [raise_for_status()] and [json()] make of the outcome of a
    request. *)
Definition checked_json (outcome : pyresult response) : pyresult pyval :=
  match outcome with
  | Raise e => Raise e
  | Ok r =>
      if (400 <=? status_code r) && (status_code r <? 600)
      then Raise (HTTPError (status_code r))
      else match body r with
           | Some v => Ok v
           | None => Raise JSONDecodeError
           end
  end.

(** What [json()] alone makes of it. *)
Definition unchecked_json (outcome : pyresult response) : pyresult pyval :=
  match outcome with
  | Raise e => Raise e
  | Ok r => match body r with
            | Some v => Ok v
            | None => Raise JSONDecodeError
            end
  end.

(** The number of [authenticate()] calls a history records. *)
Definition is_authenticate (ev : event) : bool :=
  match ev with EvAuthenticate => true | _ => false end.

Definition count_auth (h : list event) : nat :=
  List.length (filter is_authenticate h).

(** The ten transform calls of the descrambling protocol, in order, for
    salts [s1 .. s5]: the argument tuples as the protocol description
    lists them. *)
Definition transform_calls (s1 s2 s3 s4 s5 : Z) : list event :=
  [EvInvocate "cdx" [s1; s2; s3; s4; s5];
   EvInvocate "rdx" [s1; s2; s4; s3; s5];
   EvInvocate "bdx" [s1; s2; s4; s3; s5];
   EvInvocate "ndx" [s1; s2; s4; s3; s5];
   EvInvocate "mdx" [s1; s2; s4; s3; s5];
   EvInvocate "cdx" [s2; s1; s3; s5; s4];
   EvInvocate "rdx" [s2; s1; s3; s4; s5];
   EvInvocate "bdx" [s2; s1; s4; s3; s5];
   EvInvocate "ndx" [s2; s1; s4; s3; s5];
   EvInvocate "mdx" [s2; s1; s4; s3; s5]].

(** The payload id as the signing scheme is described, over a 5-tuple of
    salts given as a list: [e = table[base_id mod 100] + base_id + 2 * day],
    [salt_index = 1 if e mod 10 < 4 else 3],
    [e + salts[salt_index] * day - salts[salt_index - 1]]. *)
Definition payload_id_formula (base_id day : Z) (salts5 : list Z) : Z :=
  let e := nth (Z.to_nat (base_id mod 100)) DUMMY_DATA 0 + base_id + 2 * day in
  let salt_index := if e mod 10 <? 4 then 1%nat else 3%nat in
  e + nth salt_index salts5 0 * day - nth (salt_index - 1) salts5 0.



(** The request that [refresh_auth_token] posts from a session whose
    access token is held. *)
Definition refresh_request (o : Nepse) : request :=
  {| req_method := POST; req_url := refresh_token_url;
     req_headers :=
       [("Authorization", ("Salter " ++ py_str (access_token o))%string);
        ("Content-Type", "application/json");
        ("User-Agent", USER_AGENT)];
     req_json := Some (refresh_payload o) |}.

(** A refresh outcome that fails: the transport raises, the status is an
    error status, or the body cannot be decoded; with the exception that
    [refresh_auth_token] meets. *)
Definition refresh_failure (outcome : pyresult response) : option exn :=
  match outcome with
  | Raise e => Some e
  | Ok r =>
      if (400 <=? status_code r) && (status_code r <? 600)
      then Some (HTTPError (status_code r))
      else match body r with
           | None => Some JSONDecodeError
           | Some _ => None
           end
  end.

(** ** A sample transform module, responses and worlds

    The sample module makes every export depend on the order of its
    arguments, so that a wrong argument tuple gives a wrong cut-point. *)

Definition sample_parser : NepseTokenParser :=
  {| invocate := fun name args =>
       match args with
       | [a; b; c; d; e] =>
           if String.eqb name "cdx" then Ok [c - a + (e - d)]
           else if String.eqb name "rdx" then Ok [c + b]
           else if String.eqb name "bdx" then Ok [2 * c]
           else if String.eqb name "ndx" then Ok [2 * c + d - a]
           else if String.eqb name "mdx" then Ok [2 * c + d + e - b]
           else Raise (KeyError (PStr name))
       | _ => Raise (TypeError "arity")
       end |}.

Definition sample_auth_body : pyval :=
  PDict [("salt1", PInt 1); ("salt2", PStr "2"); ("salt3", PInt 3);
         ("salt4", PInt 4); ("salt5", PInt 5);
         ("accessToken", PStr "abcdefghijklmnopqrst");
         ("refreshToken", PStr "ABCDEFGHIJKLMNOPQRST")].

Definition sample_status : pyval :=
  PDict [("isOpen", PStr "OPEN"); ("id", PInt 147)].

Definition sample_refresh_body : pyval :=
  PDict [("accessToken", PStr "fresh-access");
         ("refreshToken", PStr "fresh-refresh");
         ("serverTime", PInt 1678900000000);
         ("salt", PList [PInt 6; PInt 7; PInt 8; PInt 9; PInt 10])].

(** A portal that answers every endpoint but the refresh one, which the
    transport cannot reach. *)
Definition sample_world : World :=
  {| net := fun _ r =>
       if String.eqb (req_url r) (req_url prove_request)
       then Ok {| status_code := 200; body := Some sample_auth_body |}
       else if String.eqb (req_url r) market_open_url
       then Ok {| status_code := 200; body := Some sample_status |}
       else Raise ConnectionError;
     clock := fun _ => (3400000001 # 2)%Q |}.

(** A portal whose refresh endpoint answers with a new access token, a new
    refresh token, a server time and new salts. *)
Definition refreshing_world : World :=
  {| net := fun _ r =>
       if String.eqb (req_url r) (req_url prove_request)
       then Ok {| status_code := 200; body := Some sample_auth_body |}
       else if String.eqb (req_url r) refresh_token_url
       then Ok {| status_code := 200; body := Some sample_refresh_body |}
       else Raise ConnectionError;
     clock := fun _ => (3400000001 # 2)%Q |}.



(** A session as [Nepse(enable_cache=False)] builds it, before
    [__init__] authenticates. *)
Definition fresh_state : State Nepse :=
  {| self := new_Nepse sample_parser 30 false; history := [] |}.

(** The session after [__init__] in the sample world. *)
Definition sample_state : State Nepse :=
  snd (Nepse__init__ sample_world sample_parser 30 false []).

(** A session that holds an access token and no salts, as a refresh
    answered with ["salt": null] leaves it. *)
Definition saltless_state : State Nepse :=
  {| self := set_salts PNone (self sample_state); history := [] |}.

Definition fresh_security_state : State MyNepseSession.t :=
  {| self := {| MyNepseSession.token_parser := sample_parser;
                MyNepseSession.access_token := PNone;
                MyNepseSession.refresh_token := PNone;
                MyNepseSession.salts := PNone;
                MyNepseSession.token_timestamp := 0 |};
     history := [] |}.

Definition sample_security_state : State MyNepseSession.t :=
  snd (MyNepseSession.authenticate sample_world fresh_security_state).

(** A cache that holds the market status until far in the future, and a
    session without token that has it. *)
Definition status_cache : CacheManager :=
  {| _cache := [("market_status", (sample_status, (2000000000 # 1)%Q))];
     default_ttl := 30 |}.

Definition cached_status_state : State Nepse :=
  {| self := set_cache (Some status_cache) (new_Nepse sample_parser 30 true);
     history := [] |}.

Definition empty_cache : CacheManager :=
  {| _cache := []; default_ttl := 30 |}.

(** A portal that answers every request with the list [[1]], under a clock
    that stands still. *)
Definition steady_world : World :=
  {| net := fun _ _ =>
       Ok {| status_code := 200; body := Some (PList [PInt 1]) |};
     clock := fun _ => (5 # 1)%Q |}.


(** The session of the sample world, given an empty cache. *)
Definition sample_cached_state : State Nepse :=
  {| self := set_cache (Some empty_cache) (self sample_state);
     history := [] |}.

(** The GET that a [MyNepseSession] holding an access token sends for the
    market status. *)
Definition security_status_request (o : MyNepseSession.t) : request :=
  {| req_method := GET;
     req_url := (BASE_URL ++ "/api/nots/nepse-data/market-open")%string;
     req_headers :=
       [("Authorization",
         ("Salter " ++ py_str (MyNepseSession.access_token o))%string);
        ("Content-Type", "application/json");
        ("User-Agent", MyNepseSession.USER_AGENT)];
     req_json := None |}.

(** A portal whose market status has no [id], answered with status 500. *)
Definition idless_world : World :=
  {| net := fun _ _ =>
       Ok {| status_code := 500;
             body := Some (PDict [("isOpen", PStr "CLOSE")]) |};
     clock := fun _ => (5 # 1)%Q |}.


(** * Properties *)

(** ** Slices and reassembly *)

Section SequenceFacts.
Context {A : Type}.
Implicit Types (t : list A) (i j : Z).

Lemma adjust_bound_nonneg (len i : Z) :
  0 <= i -> adjust_bound len i = Z.min i len.
Proof.
  intros Hi. unfold adjust_bound.
  destruct (i <? 0) eqn:E; [apply Z.ltb_lt in E; lia | reflexivity].
Qed.

Lemma skipn_min_length t (k : nat) :
  skipn (Nat.min k (List.length t)) t = skipn k t.
Proof.
  destruct (Nat.le_gt_cases k (List.length t)) as [H | H].
  - now rewrite Nat.min_l.
  - rewrite Nat.min_r by lia.
    rewrite skipn_all. symmetry. apply skipn_all2. lia.
Qed.

Lemma firstn_min_length t (k : nat) :
  firstn (Nat.min k (List.length t)) t = firstn k t.
Proof.
  destruct (Nat.le_gt_cases k (List.length t)) as [H | H].
  - now rewrite Nat.min_l.
  - rewrite Nat.min_r by lia.
    rewrite firstn_all. symmetry. apply firstn_all2. lia.
Qed.

(** For bounds that are not negative, a slice is [skipn] after [firstn],
    which clamp by themselves. *)
Lemma py_slice_nonneg t i j :
  0 <= i -> 0 <= j ->
  py_slice t i j = skipn (Z.to_nat i) (firstn (Z.to_nat j) t).
Proof.
  intros Hi Hj. unfold py_slice.
  rewrite !adjust_bound_nonneg by assumption.
  rewrite !Z2Nat.inj_min, !Nat2Z.id.
  rewrite firstn_min_length.
  set (u := firstn (Z.to_nat j) t).
  destruct (Nat.le_gt_cases (Z.to_nat i) (List.length t)) as [H | H].
  - now rewrite Nat.min_l.
  - rewrite Nat.min_r by lia.
    assert (Hu : (List.length u <= List.length t)%nat).
    { unfold u. rewrite length_firstn. lia. }
    rewrite (skipn_all2 u) by lia.
    symmetry. apply skipn_all2. lia.
Qed.

Lemma py_slice_from_nonneg t i :
  0 <= i -> py_slice_from t i = skipn (Z.to_nat i) t.
Proof.
  intros Hi. unfold py_slice_from.
  rewrite adjust_bound_nonneg by assumption.
  rewrite Z2Nat.inj_min, Nat2Z.id. apply skipn_min_length.
Qed.

(** The reassembly on cut-points that are not negative. *)
Lemma reassemble_nonneg t (n l o p q : Z) :
  0 <= n -> 0 <= l -> 0 <= o -> 0 <= p -> 0 <= q ->
  reassemble t n l o p q =
    firstn (Z.to_nat n) t
    ++ skipn (S (Z.to_nat n)) (firstn (Z.to_nat l) t)
    ++ skipn (S (Z.to_nat l)) (firstn (Z.to_nat o) t)
    ++ skipn (S (Z.to_nat o)) (firstn (Z.to_nat p) t)
    ++ skipn (S (Z.to_nat p)) (firstn (Z.to_nat q) t)
    ++ skipn (S (Z.to_nat q)) t.
Proof.
  intros Hn Hl Ho Hp Hq. unfold reassemble.
  rewrite !py_slice_nonneg, py_slice_from_nonneg by lia.
  rewrite !Z2Nat.inj_add by lia.
  change (Z.to_nat 0) with 0%nat. change (Z.to_nat 1) with 1%nat.
  rewrite !Nat.add_1_r. reflexivity.
Qed.

(** Removal by index: facts by induction on the list. *)
Lemma remove_at_from_none (cuts : list Z) t (k : Z) :
  (forall x, In x cuts -> x < k) ->
  remove_at_from k cuts t = t.
Proof.
  revert k. induction t as [| a t IH]; intros k Hlt; simpl.
  - reflexivity.
  - destruct (existsb (Z.eqb k) cuts) eqn:E.
    + apply existsb_exists in E. destruct E as [x [Hin Hx]].
      apply Z.eqb_eq in Hx. subst x. specialize (Hlt _ Hin). lia.
    + f_equal. apply IH. intros x Hin. specialize (Hlt _ Hin). lia.
Qed.

Lemma remove_at_from_next (cuts : list Z) t (k : Z) (m : nat) :
  (m < List.length t)%nat ->
  In (k + Z.of_nat m) cuts ->
  (forall x, In x cuts -> x < k \/ k + Z.of_nat m <= x) ->
  remove_at_from k cuts t =
    firstn m t ++ remove_at_from (k + Z.of_nat m + 1) cuts (skipn (S m) t).
Proof.
  revert k m. induction t as [| a t IH]; intros k m Hm Hin Hout.
  - simpl in Hm. lia.
  - destruct m as [| m].
    + cbn [remove_at_from firstn skipn app].
      replace (k + Z.of_nat 0) with k in * by lia.
      assert (E : existsb (Z.eqb k) cuts = true).
      { apply existsb_exists. exists k. split; [assumption | apply Z.eqb_refl]. }
      rewrite E. reflexivity.
    + cbn [remove_at_from firstn app].
      assert (E : existsb (Z.eqb k) cuts = false).
      { destruct (existsb (Z.eqb k) cuts) eqn:E; [| reflexivity].
        apply existsb_exists in E. destruct E as [x [Hx Hk]].
        apply Z.eqb_eq in Hk. subst x. destruct (Hout _ Hx); lia. }
      rewrite E. f_equal.
      rewrite (IH (k + 1) m).
      * change (skipn (S (S m)) (a :: t)) with (skipn (S m) t).
        do 2 f_equal. lia.
      * simpl in Hm. lia.
      * replace (k + 1 + Z.of_nat m) with (k + Z.of_nat (S m)) by lia.
        assumption.
      * intros x Hx. destruct (Hout _ Hx); lia.
Qed.

(** One step in absolute positions: from position [a], up to and over the
    next cut [c]. *)
Lemma remove_at_from_step (cuts : list Z) t (a c : nat) :
  (a <= c < List.length t)%nat ->
  In (Z.of_nat c) cuts ->
  (forall x, In x cuts -> x < Z.of_nat a \/ Z.of_nat c <= x) ->
  remove_at_from (Z.of_nat a) cuts (skipn a t) =
    skipn a (firstn c t)
    ++ remove_at_from (Z.of_nat (S c)) cuts (skipn (S c) t).
Proof.
  intros Hac Hin Hout.
  rewrite (remove_at_from_next cuts (skipn a t) (Z.of_nat a) (c - a)).
  - rewrite skipn_firstn_comm, skipn_skipn.
    replace (S (c - a) + a)%nat with (S c) by lia.
    do 2 f_equal. lia.
  - rewrite length_skipn. lia.
  - replace (Z.of_nat a + Z.of_nat (c - a)) with (Z.of_nat c) by lia.
    assumption.
  - intros x Hx. destruct (Hout _ Hx); lia.
Qed.

Lemma remove_five_sorted t (n l o p q : nat) :
  (n < l < o)%nat -> (o < p < q)%nat -> (q < List.length t)%nat ->
  remove_at (map Z.of_nat [n; l; o; p; q]) t =
    firstn n t
    ++ skipn (S n) (firstn l t)
    ++ skipn (S l) (firstn o t)
    ++ skipn (S o) (firstn p t)
    ++ skipn (S p) (firstn q t)
    ++ skipn (S q) t.
Proof.
  intros H1 H2 H3. unfold remove_at.
  set (cuts := map Z.of_nat [n; l; o; p; q]).
  assert (Hcuts : forall x, In x cuts <->
            x = Z.of_nat n \/ x = Z.of_nat l \/ x = Z.of_nat o
            \/ x = Z.of_nat p \/ x = Z.of_nat q).
  { intros x. unfold cuts. simpl. intuition congruence. }
  change (remove_at_from 0 cuts t)
    with (remove_at_from (Z.of_nat 0) cuts (skipn 0 t)).
  rewrite (remove_at_from_step cuts t 0 n); cycle 1.
  { lia. } { apply Hcuts. tauto. } { intros x Hx. apply Hcuts in Hx. lia. }
  rewrite (remove_at_from_step cuts t (S n) l); cycle 1.
  { lia. } { apply Hcuts. tauto. } { intros x Hx. apply Hcuts in Hx. lia. }
  rewrite (remove_at_from_step cuts t (S l) o); cycle 1.
  { lia. } { apply Hcuts. tauto. } { intros x Hx. apply Hcuts in Hx. lia. }
  rewrite (remove_at_from_step cuts t (S o) p); cycle 1.
  { lia. } { apply Hcuts. tauto. } { intros x Hx. apply Hcuts in Hx. lia. }
  rewrite (remove_at_from_step cuts t (S p) q); cycle 1.
  { lia. } { apply Hcuts. tauto. } { intros x Hx. apply Hcuts in Hx. lia. }
  rewrite (remove_at_from_none cuts (skipn (S q) t)).
  - reflexivity.
  - intros x Hx. apply Hcuts in Hx. lia.
Qed.

End SequenceFacts.

Lemma length_list_ascii_of_string (s : string) :
  List.length (list_ascii_of_string s) = String.length s.
Proof.
  induction s as [| c s IH]; simpl; [reflexivity | now rewrite IH].
Qed.

(** C2, as stated, fails: the five cut-points [1 < 3 < 5 < 7 < 9] are in
    bounds for a ten-character token, and the reassembly drops the five
    characters at those indices, not six characters. *)
Lemma reassemble_drops_five_not_six :
  let t := list_ascii_of_string "abcdefghij" in
  (0 <= 1 < 3 /\ 3 < 5 /\ 5 < 7 /\ 7 < 9 /\ 9 < Z.of_nat (List.length t))
  /\ reassemble t 1 3 5 7 9 = list_ascii_of_string "acegi"
  /\ (List.length (reassemble t 1 3 5 7 9) + 6 <> List.length t)%nat.
Proof.
  cbv zeta. repeat split; try (vm_compute; congruence); vm_compute; lia.
Qed.

(** C2, amended: the reassembled token is the six-segment concatenation,
    and for strictly increasing in-bounds cut-points it is the token
    without the characters at the five cut indices [n, l, o, p, q], the
    others kept in index order: exactly five characters are removed. *)
Theorem reassemble_removes_cut_indices :
  forall (A : Type) (t : list A) (n l o p q : Z),
    0 <= n < l -> l < o -> o < p -> p < q ->
    q < Z.of_nat (List.length t) ->
    reassemble t n l o p q =
      py_slice t 0 n ++ py_slice t (n + 1) l ++ py_slice t (l + 1) o
      ++ py_slice t (o + 1) p ++ py_slice t (p + 1) q
      ++ py_slice_from t (q + 1)
    /\ reassemble t n l o p q = remove_at [n; l; o; p; q] t
    /\ (List.length (reassemble t n l o p q) + 5 = List.length t)%nat.
Proof.
  intros A t n l o p q Hnl Hlo Hop Hpq Hq.
  split; [reflexivity |].
  assert (E : reassemble t n l o p q =
              remove_at (map Z.of_nat [Z.to_nat n; Z.to_nat l; Z.to_nat o;
                                       Z.to_nat p; Z.to_nat q]) t).
  { rewrite reassemble_nonneg by lia.
    symmetry. apply remove_five_sorted; lia. }
  split.
  - rewrite E. cbn [map]. rewrite !Z2Nat.id by lia. reflexivity.
  - rewrite reassemble_nonneg by lia.
    rewrite !length_app, !length_skipn, !length_firstn.
    assert (Hn' : (Z.to_nat n < Z.to_nat l)%nat) by lia.
    assert (Hl' : (Z.to_nat l < Z.to_nat o)%nat) by lia.
    assert (Ho' : (Z.to_nat o < Z.to_nat p)%nat) by lia.
    assert (Hp' : (Z.to_nat p < Z.to_nat q)%nat) by lia.
    assert (Hq' : (Z.to_nat q < List.length t)%nat) by lia.
    clear - Hn' Hl' Ho' Hp' Hq'.
    rewrite !Nat.min_l by lia.
    generalize dependent (Z.to_nat q). generalize dependent (Z.to_nat p).
    generalize dependent (Z.to_nat o). generalize dependent (Z.to_nat l).
    generalize dependent (Z.to_nat n). intros. lia.
Qed.

Lemma reassemble_removes_cut_indices_witness :
  reassemble (list_ascii_of_string "abcdefghij") 1 3 5 7 9 =
    remove_at [1; 3; 5; 7; 9] (list_ascii_of_string "abcdefghij").
Proof.
  apply (reassemble_removes_cut_indices ascii
           (list_ascii_of_string "abcdefghij") 1 3 5 7 9);
    try lia; vm_compute; reflexivity.
Defined.

(** C10: for cut-points that are not negative the reassembly of a string
    token never raises; every segment is clamped, its length being what is
    left of [[i, j)] inside the string (nothing when the bounds cross or
    lie beyond the end); and when every cut-point is at or beyond the
    length of the token, the token comes back unchanged. *)
Theorem descramble_token_total :
  forall (s : string) (n l o p q : Z),
    0 <= n -> 0 <= l -> 0 <= o -> 0 <= p -> 0 <= q ->
    let len := Z.of_nat (String.length s) in
    descramble_token (PStr s) n l o p q =
      Ok (PStr (string_of_list_ascii
                  (reassemble (list_ascii_of_string s) n l o p q)))
    /\ (forall i j, 0 <= i -> 0 <= j ->
          Z.of_nat (List.length (py_slice (list_ascii_of_string s) i j))
          = Z.max 0 (Z.min j len - Z.min i len))
    /\ (forall i, 0 <= i ->
          Z.of_nat (List.length (py_slice_from (list_ascii_of_string s) i))
          = len - Z.min i len)
    /\ (len <= n -> len <= l -> len <= o -> len <= p -> len <= q ->
        descramble_token (PStr s) n l o p q = Ok (PStr s)).
Proof.
  intros s n l o p q Hn Hl Ho Hp Hq len.
  assert (Hlen : Z.of_nat (List.length (list_ascii_of_string s)) = len).
  { unfold len. now rewrite length_list_ascii_of_string. }
  split; [reflexivity |].
  split; [| split].
  - intros i j Hi Hj. rewrite py_slice_nonneg by assumption.
    rewrite length_skipn, length_firstn. lia.
  - intros i Hi. rewrite py_slice_from_nonneg by assumption.
    rewrite length_skipn. lia.
  - intros Gn Gl Go Gp Gq. cbn [descramble_token].
    rewrite reassemble_nonneg by assumption.
    set (t := list_ascii_of_string s) in *.
    rewrite (firstn_all2 (n := Z.to_nat n) t) by lia.
    rewrite !(skipn_all2 (n := S _) (firstn _ t))
      by (rewrite length_firstn; lia).
    rewrite (skipn_all2 (n := S (Z.to_nat q)) t) by lia.
    cbn [app]. rewrite app_nil_r.
    unfold t. now rewrite string_of_list_ascii_of_string.
Qed.

Lemma descramble_token_total_witness :
  descramble_token (PStr "abc") 3 4 5 6 7 = Ok (PStr "abc").
Proof.
  apply (descramble_token_total "abc" 3 4 5 6 7);
    try lia; vm_compute; discriminate.
Defined.

(** ** The monad *)

Section MonadFacts.
Context {O : Type}.
Implicit Types (st : State O).

Lemma extend_nil st : extend st [] = st.
Proof. destruct st. unfold extend. cbn. now rewrite app_nil_r. Qed.

Lemma extend_extend st (e1 e2 : list event) :
  extend (extend st e1) e2 = extend st (e1 ++ e2).
Proof. unfold extend. cbn. now rewrite app_assoc. Qed.

Lemma log_run (ev : event) st : log ev st = (Ok tt, extend st [ev]).
Proof. reflexivity. Qed.

Lemma lift_run {A} (r : pyresult A) st : lift r st = (r, st).
Proof. reflexivity. Qed.

Lemma bind_run {A B} (m : M O A) (k : A -> M O B) st :
  bind m k st =
    match m st with
    | (Ok a, st') => k a st'
    | (Raise e, st') => (Raise e, st')
    end.
Proof. reflexivity. Qed.

Lemma invocate0_run (parser : NepseTokenParser) name args st :
  invocate0 parser name args st =
    (invocate_first parser name args, extend st [EvInvocate name args]).
Proof. reflexivity. Qed.

End MonadFacts.

(** ** [parse_token_response] *)

Local Arguments salt_of : simpl never.
Local Arguments invocate_first : simpl never.
Local Arguments py_getitem_str : simpl never.
Local Arguments descramble_token : simpl never.
Local Arguments is_key_value_type_error : simpl never.

Ltac destruct_result :=
  match goal with
  | |- context [match salt_of ?rd ?f with _ => _ end] =>
      destruct (salt_of rd f) eqn:?
  | |- context [match invocate_first ?p ?n ?a with _ => _ end] =>
      destruct (invocate_first p n a) eqn:?
  | |- context [match py_getitem_str ?rd ?f with _ => _ end] =>
      destruct (py_getitem_str rd f) eqn:?
  | |- context [match descramble_token ?t ?n ?l ?o ?p ?q with _ => _ end] =>
      destruct (descramble_token t n l o p q) eqn:?
  | |- context [if is_key_value_type_error ?e then _ else _] =>
      destruct (is_key_value_type_error e) eqn:?
  end.

(** A run of the parser from any state is its run from the empty state,
    with the events appended: the parser reads nothing of the session
    and nothing of the history. *)
Lemma parse_token_response_anywhere :
  forall (O : Type) (parser : NepseTokenParser) (rd : pyval) (st : State O),
    parse_token_response parser rd st =
      (fst (parse_outcome parser rd),
       extend st (snd (parse_outcome parser rd))).
Proof.
  intros O parser rd st. destruct st as [o h].
  unfold parse_outcome, parse_token_response, try_except, bind, lift,
    invocate0, log, ret, raise, extend.
  cbn.
  repeat (destruct_result; cbn);
    rewrite ?app_nil_r, <- ?app_assoc; reflexivity.
Qed.

Lemma parse_outcome_no_authenticate :
  forall (parser : NepseTokenParser) (rd : pyval),
    count_auth (snd (parse_outcome parser rd)) = 0%nat.
Proof.
  intros parser rd.
  unfold parse_outcome, parse_token_response, try_except, bind, lift,
    invocate0, log, ret, raise.
  cbn.
  repeat (destruct_result; cbn); reflexivity.
Qed.

Lemma parse_outcome_five_salts :
  forall (parser : NepseTokenParser) (rd : pyval),
    match fst (parse_outcome parser rd) with
    | Ok (_, _, s) =>
        exists s1 s2 s3 s4 s5,
          s = [s1; s2; s3; s4; s5]
          /\ salt_of rd "salt1" = Ok s1 /\ salt_of rd "salt2" = Ok s2
          /\ salt_of rd "salt3" = Ok s3 /\ salt_of rd "salt4" = Ok s4
          /\ salt_of rd "salt5" = Ok s5
    | Raise _ => True
    end.
Proof.
  intros parser rd.
  unfold parse_outcome, parse_token_response, try_except, bind, lift,
    invocate0, log, ret, raise.
  cbn.
  repeat (destruct_result; cbn); try exact I.
  do 5 eexists. repeat split; reflexivity.
Qed.



(** C1: with salts [s1 .. s5], the parser makes exactly the ten transform
    calls of [transform_calls], in that order: [cdx] on
    [(s1,s2,s3,s4,s5)], then [rdx], [bdx], [ndx], [mdx] on
    [(s1,s2,s4,s3,s5)] for the access token; [cdx] on [(s2,s1,s3,s5,s4)],
    [rdx] on [(s2,s1,s3,s4,s5)], then [bdx], [ndx], [mdx] on
    [(s2,s1,s4,s3,s5)] for the refresh token.  Whatever the module answers
    on other tuples, the tokens are reassembled with the cut-points it
    answers on these ten. *)
Theorem parse_token_response_cut_points :
  forall (O : Type) (parser : NepseTokenParser) (rd : pyval) (st : State O)
         (s1 s2 s3 s4 s5 n l o p q a b c d e : Z),
    salt_of rd "salt1" = Ok s1 -> salt_of rd "salt2" = Ok s2 ->
    salt_of rd "salt3" = Ok s3 -> salt_of rd "salt4" = Ok s4 ->
    salt_of rd "salt5" = Ok s5 ->
    invocate_first parser "cdx" [s1; s2; s3; s4; s5] = Ok n ->
    invocate_first parser "rdx" [s1; s2; s4; s3; s5] = Ok l ->
    invocate_first parser "bdx" [s1; s2; s4; s3; s5] = Ok o ->
    invocate_first parser "ndx" [s1; s2; s4; s3; s5] = Ok p ->
    invocate_first parser "mdx" [s1; s2; s4; s3; s5] = Ok q ->
    invocate_first parser "cdx" [s2; s1; s3; s5; s4] = Ok a ->
    invocate_first parser "rdx" [s2; s1; s3; s4; s5] = Ok b ->
    invocate_first parser "bdx" [s2; s1; s4; s3; s5] = Ok c ->
    invocate_first parser "ndx" [s2; s1; s4; s3; s5] = Ok d ->
    invocate_first parser "mdx" [s2; s1; s4; s3; s5] = Ok e ->
    parse_token_response parser rd st =
      (rbind (py_getitem_str rd "accessToken") (fun access =>
       rbind (py_getitem_str rd "refreshToken") (fun refresh =>
       rbind (descramble_token access n l o p q) (fun parsed_access =>
       rbind (descramble_token refresh a b c d e) (fun parsed_refresh =>
       Ok (parsed_access, parsed_refresh, [s1; s2; s3; s4; s5]))))),
       extend st (transform_calls s1 s2 s3 s4 s5)).
Proof.
  intros O parser rd st s1 s2 s3 s4 s5 n l o p q a b c d e
         H1 H2 H3 H4 H5 Hn Hl Ho Hp Hq Ha Hb Hc Hd He.
  destruct st as [ob h].
  unfold parse_token_response, try_except, bind, lift, invocate0, log,
    ret, raise, extend, transform_calls, rbind.
  cbn. rewrite H1, H2, H3, H4, H5. cbn.
  rewrite Hn, Hl, Ho, Hp, Hq, Ha, Hb, Hc, Hd, He. cbn.
  rewrite <- !app_assoc. cbn.
  repeat (destruct_result; cbn); reflexivity.
Qed.

Lemma parse_token_response_cut_points_witness :
  parse_token_response sample_parser sample_auth_body fresh_state =
    (Ok (PStr "abcefhjlmnpqrst", PStr "BCDFGHKLMNOQRST", [1; 2; 3; 4; 5]),
     extend fresh_state (transform_calls 1 2 3 4 5)).
Proof.
  apply (parse_token_response_cut_points Nepse sample_parser
           sample_auth_body fresh_state 1 2 3 4 5 3 6 8 10 14 0 4 8 9 15);
    reflexivity.
Defined.




(** ** [authenticate] *)

Lemma count_auth_app (h1 h2 : list event) :
  count_auth (h1 ++ h2) = (count_auth h1 + count_auth h2)%nat.
Proof. unfold count_auth. now rewrite filter_app, length_app. Qed.

Local Arguments parse_outcome : simpl never.

Ltac destruct_transport :=
  match goal with
  | |- context [match net ?W ?h ?r with _ => _ end] =>
      destruct (net W h r) as [?resp | ?err] eqn:?
  | |- context [if (400 <=? ?s) && (?s <? 600) then _ else _] =>
      destruct ((400 <=? s) && (s <? 600)) eqn:?
  | |- context [match body ?r with _ => _ end] =>
      destruct (body r) as [?data |] eqn:?
  | |- context [match parse_outcome ?p ?d with _ => _ end] =>
      destruct (parse_outcome p d) as [[[[?a ?r] ?s] | ?err] ?evs] eqn:?
  | |- context [fst (parse_outcome ?p ?d)] =>
      destruct (parse_outcome p d) as [[[[?a ?r] ?s] | ?err] ?evs] eqn:?
  end.

Section AuthenticateFacts.
Variable W : World.

(** Every run of [authenticate] records its own entry and no other. *)
Lemma authenticate_history (st : State Nepse) :
  exists evs,
    history (snd (authenticate W st)) = history st ++ EvAuthenticate :: evs
    /\ count_auth evs = 0%nat.
Proof.
  destruct st as [o h].
  unfold authenticate, bind, log, session_request, raise_for_status, json,
    get_self, modify_self, time_time, raise, ret.
  cbn.
  repeat (destruct_transport; cbn);
    try (eexists; rewrite <- ?app_assoc; cbn; split; reflexivity).
  all: rewrite parse_token_response_anywhere; cbn;
    pose proof (parse_outcome_no_authenticate (token_parser o) data) as Hq;
    destruct (parse_outcome (token_parser o) data)
      as [[[[a r] s] | err] evs]; cbn in *;
    eexists; rewrite <- ?app_assoc; cbn; (split; [reflexivity |]);
    unfold count_auth in *; cbn [filter is_authenticate];
    rewrite ?filter_app, ?length_app, Hq; reflexivity.
Qed.

Lemma authenticate_counts_once (st st' : State Nepse) (r : pyresult unit) :
  authenticate W st = (r, st') ->
  count_auth (history st') = (count_auth (history st) + 1)%nat.
Proof.
  intros H. destruct (authenticate_history st) as [evs [Hh Hc]].
  rewrite H in Hh. cbn in Hh. rewrite Hh.
  rewrite count_auth_app. cbn. unfold count_auth in *. cbn.
  rewrite Hc. reflexivity.
Qed.

(** A run of [authenticate] that returns has stored five integer salts,
    and touched neither the parser nor the cache. *)
Lemma authenticate_ok (st st' : State Nepse) :
  authenticate W st = (Ok tt, st') ->
  exists a r s1 s2 s3 s4 s5 ts,
    self st' =
      set_token_timestamp ts
        (set_credentials a r (PList (map PInt [s1; s2; s3; s4; s5]))
                         (self st)).
Proof.
  destruct st as [o h].
  unfold authenticate, bind, log, session_request, raise_for_status, json,
    get_self, modify_self, time_time, raise, ret.
  cbn.
  repeat (destruct_transport; cbn); try discriminate.
  rewrite parse_token_response_anywhere. cbn.
  pose proof (parse_outcome_five_salts (token_parser o) data) as H5.
  destruct (parse_outcome (token_parser o) data)
    as [[[[a r] s] | err] evs]; cbn in *; [| discriminate].
  destruct H5 as (s1 & s2 & s3 & s4 & s5 & -> & _).
  intros [= <-]. cbn. do 8 eexists. reflexivity.
Qed.

End AuthenticateFacts.

Local Arguments count_auth : simpl never.

Section SecurityAuthenticateFacts.
Variable W : World.


End SecurityAuthenticateFacts.

(** ** [_get_auth_headers] *)



(** ** [_get_floorsheet_payload_id] *)

Lemma py_index_in_range {A} (l : list A) (k : Z) (d : A) :
  0 <= k < Z.of_nat (List.length l) ->
  py_index l k = Ok (nth (Z.to_nat k) l d).
Proof.
  intros Hk. unfold py_index.
  destruct (k <? 0) eqn:E; [apply Z.ltb_lt in E; lia |].
  replace (0 <=? k) with true by (symmetry; apply Z.leb_le; lia).
  replace (k <? Z.of_nat (List.length l)) with true
    by (symmetry; apply Z.ltb_lt; lia).
  cbn [andb].
  destruct (nth_error l (Z.to_nat k)) as [a |] eqn:N.
  - f_equal. symmetry. now apply nth_error_nth.
  - apply nth_error_None in N. lia.
Qed.

Lemma DUMMY_DATA_lookup (dummy_id : Z) :
  py_index DUMMY_DATA (dummy_id mod Z.of_nat (List.length DUMMY_DATA))
  = Ok (nth (Z.to_nat (dummy_id mod 100)) DUMMY_DATA 0).
Proof.
  change (Z.of_nat (List.length DUMMY_DATA)) with 100.
  apply py_index_in_range.
  change (Z.of_nat (List.length DUMMY_DATA)) with 100.
  apply Z.mod_pos_bound. lia.
Qed.

(** The arithmetic at the end of the method, on five integer salts. *)
Lemma salted_id (e day s0 s1 s2 s3 s4 : Z) (st : State Nepse) :
  salts (self st) = PList (map PInt [s0; s1; s2; s3; s4]) ->
  let salt_index := if e mod 10 <? 4 then 1 else 3 in
  (x <- lift (py_getitem_int (salts (self st)) salt_index) ;;
   prod <- lift (py_mul_int x day) ;;
   sum <- lift (py_int_add e prod) ;;
   y <- lift (py_getitem_int (salts (self st)) (salt_index - 1)) ;;
   lift (py_int_sub sum y)) st
  = (Ok (e + nth (if e mod 10 <? 4 then 1%nat else 3%nat) [s0; s1; s2; s3; s4] 0
             * day
         - nth ((if e mod 10 <? 4 then 1%nat else 3%nat) - 1)
               [s0; s1; s2; s3; s4] 0),
     st).
Proof.
  intros Hs. rewrite Hs. destruct (e mod 10 <? 4); reflexivity.
Qed.

(** C3: the payload id the method returns is
    [e + salts[salt_index] * day - salts[salt_index - 1]] with
    [e = DUMMY_DATA[base_id mod 100] + base_id + 2 * day] and
    [salt_index = 1 if e mod 10 < 4 else 3], where [base_id] is the [id]
    of the fetched market status, 147 when the status has none, for every
    day and every five integer salts held by the session. *)
Theorem payload_id_matches_formula :
  forall (W : World) (st st1 : State Nepse) (company_id day : Z)
         (status : list (string * pyval)) (base_id s0 s1 s2 s3 s4 : Z),
    get_market_status W true st = (Ok (PDict status), st1) ->
    py_int (match dict_get status "id" with
            | Some v => v
            | None => PInt 147
            end) = Ok base_id ->
    salts (self st1) = PList (map PInt [s0; s1; s2; s3; s4]) ->
    _get_floorsheet_payload_id W company_id day st
    = (Ok (payload_id_formula base_id day [s0; s1; s2; s3; s4]), st1)
    /\ (dict_get status "id" = None -> base_id = 147).
Proof.
  intros W st st1 company_id day status base_id s0 s1 s2 s3 s4
         Hstatus Hid Hsalts.
  split.
  - unfold _get_floorsheet_payload_id.
    rewrite bind_run, Hstatus.
    rewrite bind_run, lift_run. cbn [py_get].
    rewrite bind_run, lift_run, Hid.
    rewrite DUMMY_DATA_lookup.
    rewrite bind_run. unfold get_self at 1. cbv beta iota.
    rewrite Hsalts at 1. cbn [py_truthy map negb].
    rewrite bind_run. unfold ret at 1. cbv beta iota.
    rewrite bind_run. unfold get_self at 1. cbv beta iota.
    unfold payload_id_formula.
    apply salted_id. assumption.
  - intros Hnone. rewrite Hnone in Hid. cbn in Hid. congruence.
Qed.

Lemma payload_id_matches_formula_witness :
  _get_floorsheet_payload_id sample_world 0 12 sample_state
  = (Ok 1079,
     extend sample_state
       [EvRequest
          {| req_method := GET; req_url := market_open_url;
             req_headers :=
               [("Authorization", "Salter abcefhjlmnpqrst");
                ("Content-Type", "application/json");
                ("User-Agent", USER_AGENT)];
             req_json := None |}]).
Proof.
  apply (payload_id_matches_formula sample_world sample_state
           (snd (get_market_status sample_world true sample_state))
           0 12 [("isOpen", PStr "OPEN"); ("id", PInt 147)] 147 1 2 3 4 5);
    reflexivity.
Defined.

Example payload_id_formula_sample :
  payload_id_formula 147 12 [100; 200; 300; 400; 500] = 5534.
Proof. reflexivity. Qed.

(** C5, as stated, fails: on a session whose salts are unset the method
    returns an id.  It fetches the market status itself and calls
    [authenticate()] itself, as the history shows; no precondition error
    is raised. *)
Lemma payload_id_fetches_and_authenticates :
  py_truthy (salts (self saltless_state)) = false
  /\ fst (_get_floorsheet_payload_id sample_world 0 12 saltless_state)
     = Ok 1079
  /\ history (snd (_get_floorsheet_payload_id sample_world 0 12
                     saltless_state))
     = [EvRequest
          {| req_method := GET; req_url := market_open_url;
             req_headers :=
               [("Authorization", "Salter abcefhjlmnpqrst");
                ("Content-Type", "application/json");
                ("User-Agent", USER_AGENT)];
             req_json := None |};
        EvAuthenticate;
        EvRequest prove_request]
       ++ transform_calls 1 2 3 4 5 ++ [EvClock].
Proof. repeat split; reflexivity. Qed.

(** C5, amended: the method obtains the base id itself, from
    [get_market_status()] (field [id], 147 when absent).  When the salts
    of the session are unset at that point it calls [authenticate()]
    itself, once: if that call returns, the id is computed from the five
    salts it stored; if it raises, that exception is what the method
    raises.  There is no precondition error of its own. *)
Theorem payload_id_authenticates_when_salts_unset :
  forall (W : World) (st st1 : State Nepse) (company_id day : Z)
         (status : list (string * pyval)) (base_id : Z),
    get_market_status W true st = (Ok (PDict status), st1) ->
    py_int (match dict_get status "id" with
            | Some v => v
            | None => PInt 147
            end) = Ok base_id ->
    py_truthy (salts (self st1)) = false ->
    match authenticate W st1 with
    | (Ok _, st2) =>
        exists s0 s1 s2 s3 s4,
          salts (self st2) = PList (map PInt [s0; s1; s2; s3; s4])
          /\ _get_floorsheet_payload_id W company_id day st
             = (Ok (payload_id_formula base_id day [s0; s1; s2; s3; s4]), st2)
          /\ count_auth (history st2) = (count_auth (history st1) + 1)%nat
    | (Raise e, st2) =>
        _get_floorsheet_payload_id W company_id day st = (Raise e, st2)
    end.
Proof.
  intros W st st1 company_id day status base_id Hstatus Hid Hunset.
  assert (Hrun :
    _get_floorsheet_payload_id W company_id day st =
    match authenticate W st1 with
    | (Ok _, st2) =>
        let e := nth (Z.to_nat (base_id mod 100)) DUMMY_DATA 0
                 + base_id + 2 * day in
        let salt_index := if e mod 10 <? 4 then 1 else 3 in
        (x <- lift (py_getitem_int (salts (self st2)) salt_index) ;;
         prod <- lift (py_mul_int x day) ;;
         sum <- lift (py_int_add e prod) ;;
         y <- lift (py_getitem_int (salts (self st2)) (salt_index - 1)) ;;
         lift (py_int_sub sum y)) st2
    | (Raise e, st2) => (Raise e, st2)
    end).
  { unfold _get_floorsheet_payload_id.
    rewrite bind_run, Hstatus.
    rewrite bind_run, lift_run. cbn [py_get].
    rewrite bind_run, lift_run, Hid.
    rewrite DUMMY_DATA_lookup.
    rewrite bind_run. unfold get_self at 1. cbv beta iota.
    rewrite Hunset. cbn [negb].
    rewrite bind_run.
    destruct (authenticate W st1) as [[[] | e] st2]; reflexivity. }
  destruct (authenticate W st1) as [[[] | e] st2] eqn:Hauth;
    [| exact Hrun].
  destruct (authenticate_ok W _ _ Hauth)
    as (a & r & s0 & s1 & s2 & s3 & s4 & ts & Hself).
  assert (Hsalts : salts (self st2) = PList (map PInt [s0; s1; s2; s3; s4])).
  { rewrite Hself. reflexivity. }
  exists s0, s1, s2, s3, s4.
  split; [assumption |]. split.
  - rewrite Hrun. unfold payload_id_formula.
    apply salted_id. assumption.
  - eapply authenticate_counts_once; eassumption.
Qed.

Lemma payload_id_authenticates_when_salts_unset_witness :
  match authenticate sample_world
          (snd (get_market_status sample_world true saltless_state)) with
  | (Ok _, st2) =>
      exists s0 s1 s2 s3 s4,
        salts (self st2) = PList (map PInt [s0; s1; s2; s3; s4])
        /\ _get_floorsheet_payload_id sample_world 0 12 saltless_state
           = (Ok (payload_id_formula 147 12 [s0; s1; s2; s3; s4]), st2)
        /\ count_auth (history st2)
           = (count_auth
                (history (snd (get_market_status sample_world true
                                 saltless_state))) + 1)%nat
  | (Raise e, st2) =>
      _get_floorsheet_payload_id sample_world 0 12 saltless_state
      = (Raise e, st2)
  end.
Proof.
  apply (payload_id_authenticates_when_salts_unset sample_world
           saltless_state
           (snd (get_market_status sample_world true saltless_state))
           0 12 [("isOpen", PStr "OPEN"); ("id", PInt 147)] 147);
    reflexivity.
Defined.

(** ** [refresh_auth_token] *)

Section RefreshFacts.
Variable W : World.

Lemma get_auth_headers_held (st : State Nepse) :
  py_truthy (access_token (self st)) = true ->
  _get_auth_headers W st
  = (Ok (req_headers (refresh_request (self st))), st).
Proof.
  intros Hheld. unfold _get_auth_headers, bind, get_self, ret.
  cbv beta iota. rewrite Hheld. reflexivity.
Qed.

(** The run of [refresh_auth_token] up to the answer of the POST. *)
Lemma refresh_run (st : State Nepse) :
  py_truthy (access_token (self st)) = true ->
  refresh_auth_token W st =
    try_except
      (response <- lift (net W (history st) (refresh_request (self st))) ;;
       raise_for_status response ;;;
       token_data <- json response ;;
       has_access <- (if py_truthy token_data
                      then lift (py_contains token_data "accessToken")
                      else ret false) ;;
       (if has_access : bool then
          a <- lift (py_getitem_str token_data "accessToken") ;;
          modify_self (set_access_token a) ;;;
          has_time <- lift (py_contains token_data "serverTime") ;;
          (if has_time : bool then
             t <- lift (py_getitem_str token_data "serverTime") ;;
             ts <- lift (py_int_of_truediv_1000 t) ;;
             modify_self (set_token_timestamp ts)
           else ret tt) ;;;
          has_salt <- lift (py_contains token_data "salt") ;;
          (if has_salt : bool then
             s <- lift (py_getitem_str token_data "salt") ;;
             modify_self (set_salts s)
           else ret tt)
        else ret tt) ;;;
       ret token_data)
      any_exception
      (fun e =>
         log (EvPrint "Error refreshing token: " (Some e)) ;;;
         ret (PDict []))
      (extend st [EvRequest (refresh_request (self st))]).
Proof.
  intros Hheld. destruct st as [o h]. cbn [self history] in *.
  unfold refresh_auth_token, try_except, _get_auth_headers, bind,
    get_self, session_request, lift, ret, extend.
  cbn [self history]. rewrite Hheld. reflexivity.
Qed.

End RefreshFacts.

(** C6, as stated, fails: when the transport cannot reach the refresh
    endpoint, [refresh_auth_token] prints the error and returns the empty
    dict; no error reaches the caller. *)
Lemma refresh_failure_is_swallowed :
  net sample_world (history sample_state)
      (refresh_request (self sample_state))
  = Raise ConnectionError
  /\ refresh_auth_token sample_world sample_state
     = (Ok (PDict []),
        extend sample_state
          [EvRequest (refresh_request (self sample_state));
           EvPrint "Error refreshing token: " (Some ConnectionError)]).
Proof. split; reflexivity. Qed.

(** C6, amended: on a session that holds an access token, when the
    refresh fails (the transport raises, the status is a 4xx or 5xx, or
    the body cannot be decoded), [refresh_auth_token] leaves the session
    object as it was: access token, refresh token, salts and token
    timestamp unchanged.  It records the POST and the printed error and
    nothing else, so [authenticate()] is not called, and it returns the
    empty dict: the error is swallowed, not raised. *)
Theorem refresh_failure_keeps_credentials :
  forall (W : World) (st : State Nepse) (e : exn),
    py_truthy (access_token (self st)) = true ->
    refresh_failure (net W (history st) (refresh_request (self st)))
    = Some e ->
    refresh_auth_token W st
    = (Ok (PDict []),
       extend st [EvRequest (refresh_request (self st));
                  EvPrint "Error refreshing token: " (Some e)]).
Proof.
  intros W st e Hheld Hfail.
  rewrite (refresh_run W st Hheld).
  unfold refresh_failure in Hfail. unfold try_except.
  rewrite bind_run, lift_run.
  destruct (net W (history st) (refresh_request (self st)))
    as [resp | err].
  - rewrite bind_run. unfold raise_for_status.
    destruct ((400 <=? status_code resp) && (status_code resp <? 600)).
    + injection Hfail as <-. cbn. rewrite <- app_assoc. reflexivity.
    + unfold ret at 1. cbv beta iota.
      rewrite bind_run. unfold json.
      destruct (body resp) as [data |]; [discriminate |].
      injection Hfail as <-. cbn. rewrite <- app_assoc. reflexivity.
  - injection Hfail as <-. cbn. rewrite <- app_assoc. reflexivity.
Qed.

Lemma refresh_failure_keeps_credentials_witness :
  refresh_auth_token sample_world sample_state
  = (Ok (PDict []),
     extend sample_state
       [EvRequest (refresh_request (self sample_state));
        EvPrint "Error refreshing token: " (Some ConnectionError)]).
Proof.
  apply (refresh_failure_keeps_credentials sample_world sample_state
           ConnectionError); reflexivity.
Defined.

(** C7, as stated, fails: the refresh response brings a new refresh
    token, and the session keeps the old one. *)
Lemma refresh_ignores_new_refresh_token :
  fst (refresh_auth_token refreshing_world sample_state)
  = Ok sample_refresh_body
  /\ py_getitem_str sample_refresh_body "refreshToken"
     = Ok (PStr "fresh-refresh")
  /\ refresh_token (self sample_state) = PStr "BCDFGHKLMNOQRST"
  /\ refresh_token
       (self (snd (refresh_auth_token refreshing_world sample_state)))
     = PStr "BCDFGHKLMNOQRST".
Proof. repeat split; reflexivity. Qed.

(** C7, amended: on a session that holds an access token, a refresh
    answered with a decodable object that has an [accessToken] replaces
    the access token by it, replaces the salts by the response's [salt]
    when it has one and keeps them otherwise, takes the timestamp from
    [serverTime] when the response has one, and leaves the stored refresh
    token unchanged, whether or not the response brings a new one. *)
Theorem refresh_success_keeps_refresh_token :
  forall (W : World) (st : State Nepse) (resp : response)
         (d : list (string * pyval)) (a : pyval),
    py_truthy (access_token (self st)) = true ->
    net W (history st) (refresh_request (self st)) = Ok resp ->
    (400 <=? status_code resp) && (status_code resp <? 600) = false ->
    body resp = Some (PDict d) ->
    dict_get d "accessToken" = Some a ->
    (forall t, dict_get d "serverTime" = Some t ->
               exists ts, py_int_of_truediv_1000 t = Ok ts) ->
    exists o',
      refresh_auth_token W st
      = (Ok (PDict d),
         {| self := o';
            history := history st ++ [EvRequest (refresh_request (self st))] |})
      /\ access_token o' = a
      /\ refresh_token o' = refresh_token (self st)
      /\ salts o' = match dict_get d "salt" with
                    | Some s => s
                    | None => salts (self st)
                    end
      /\ match dict_get d "serverTime" with
         | Some t => py_int_of_truediv_1000 t = Ok (token_timestamp o')
         | None => token_timestamp o' = token_timestamp (self st)
         end.
Proof.
  intros W st resp d a Hheld Hnet Hstatus Hbody Haccess Htime.
  rewrite (refresh_run W st Hheld).
  unfold try_except.
  rewrite bind_run, lift_run, Hnet.
  rewrite bind_run. unfold raise_for_status. rewrite Hstatus.
  unfold ret at 1. cbv beta iota.
  rewrite bind_run. unfold json. rewrite Hbody.
  unfold ret at 1. cbv beta iota.
  assert (Htruthy : py_truthy (PDict d) = true).
  { destruct d; [discriminate | reflexivity]. }
  rewrite bind_run, Htruthy. rewrite lift_run.
  cbn [py_contains]. rewrite Haccess.
  destruct st as [o h].
  unfold bind, lift, modify_self, ret, py_getitem_str, extend.
  cbn [self history]. rewrite Haccess.
  destruct (dict_get d "serverTime") as [t |] eqn:Et.
  - destruct (Htime t eq_refl) as [ts Hts]. rewrite Hts.
    cbn [self history].
    destruct (dict_get d "salt") as [s |] eqn:Es;
      eexists; (split; [reflexivity |]); cbn; auto.
  - cbn [self history].
    destruct (dict_get d "salt") as [s |] eqn:Es;
      eexists; (split; [reflexivity |]); cbn; auto.
Qed.

Lemma refresh_success_keeps_refresh_token_witness :
  exists o',
    refresh_auth_token refreshing_world sample_state
    = (Ok sample_refresh_body,
       {| self := o';
          history := history sample_state
                     ++ [EvRequest (refresh_request (self sample_state))] |})
    /\ access_token o' = PStr "fresh-access"
    /\ refresh_token o' = PStr "BCDFGHKLMNOQRST"
    /\ salts o' = PList [PInt 6; PInt 7; PInt 8; PInt 9; PInt 10]
    /\ py_int_of_truediv_1000 (PInt 1678900000000) = Ok (token_timestamp o').
Proof.
  apply (refresh_success_keeps_refresh_token refreshing_world sample_state
           {| status_code := 200; body := Some sample_refresh_body |}
           [("accessToken", PStr "fresh-access");
            ("refreshToken", PStr "fresh-refresh");
            ("serverTime", PInt 1678900000000);
            ("salt", PList [PInt 6; PInt 7; PInt 8; PInt 9; PInt 10])]
           (PStr "fresh-access"));
    try reflexivity.
  intros t [= <-]. exists 1678900000. reflexivity.
Defined.

(** * Further properties *)

(** ** Reassembly on cut-points that repeat or run past the end *)

Section MoreSequenceFacts.
Context {A : Type}.
Implicit Types (t : list A).

Lemma remove_at_from_outside (cuts : list Z) t (k : Z) :
  (forall x, In x cuts -> x < k \/ k + Z.of_nat (List.length t) <= x) ->
  remove_at_from k cuts t = t.
Proof.
  revert k. induction t as [| a t IH]; intros k Hout; cbn [remove_at_from].
  - reflexivity.
  - destruct (existsb (Z.eqb k) cuts) eqn:E.
    + apply existsb_exists in E. destruct E as [x [Hin Hx]].
      apply Z.eqb_eq in Hx. subst x.
      destruct (Hout _ Hin) as [H | H]; cbn [List.length] in H; lia.
    + f_equal. apply IH. intros x Hin.
      destruct (Hout _ Hin) as [H | H]; cbn [List.length] in H; lia.
Qed.

(** One step from position [a] over the next cut [c], which may repeat
    the previous cut ([S c = a]) or lie beyond the end. *)
Lemma remove_at_from_step_any (cuts : list Z) t (a c : nat) :
  (a <= S c)%nat ->
  In (Z.of_nat c) cuts ->
  (forall x, In x cuts -> x < Z.of_nat a \/ Z.of_nat c <= x) ->
  remove_at_from (Z.of_nat a) cuts (skipn a t) =
    skipn a (firstn c t)
    ++ remove_at_from (Z.of_nat (S c)) cuts (skipn (S c) t).
Proof.
  intros Hac Hin Hout.
  destruct (Nat.eq_dec a (S c)) as [-> | Hne].
  - rewrite (skipn_all2 (firstn c t)); [reflexivity |].
    rewrite length_firstn. lia.
  - destruct (Nat.lt_ge_cases c (List.length t)) as [Hc | Hc].
    + apply remove_at_from_step; [lia | assumption | assumption].
    + rewrite (firstn_all2 t) by lia.
      rewrite (skipn_all2 (n := S c) t) by lia.
      cbn [remove_at_from]. rewrite app_nil_r.
      apply remove_at_from_outside.
      intros x Hx. rewrite length_skipn.
      destruct (Hout _ Hx); lia.
Qed.

Lemma remove_five_ordered t (n l o p q : nat) :
  (n <= l <= o)%nat -> (o <= p <= q)%nat ->
  remove_at (map Z.of_nat [n; l; o; p; q]) t =
    firstn n t
    ++ skipn (S n) (firstn l t)
    ++ skipn (S l) (firstn o t)
    ++ skipn (S o) (firstn p t)
    ++ skipn (S p) (firstn q t)
    ++ skipn (S q) t.
Proof.
  intros H1 H2. unfold remove_at.
  set (cuts := map Z.of_nat [n; l; o; p; q]).
  assert (Hcuts : forall x, In x cuts <->
            x = Z.of_nat n \/ x = Z.of_nat l \/ x = Z.of_nat o
            \/ x = Z.of_nat p \/ x = Z.of_nat q).
  { intros x. unfold cuts. simpl. intuition congruence. }
  change (remove_at_from 0 cuts t)
    with (remove_at_from (Z.of_nat 0) cuts (skipn 0 t)).
  rewrite (remove_at_from_step_any cuts t 0 n); cycle 1.
  { lia. } { apply Hcuts. tauto. } { intros x Hx. apply Hcuts in Hx. lia. }
  rewrite (remove_at_from_step_any cuts t (S n) l); cycle 1.
  { lia. } { apply Hcuts. tauto. } { intros x Hx. apply Hcuts in Hx. lia. }
  rewrite (remove_at_from_step_any cuts t (S l) o); cycle 1.
  { lia. } { apply Hcuts. tauto. } { intros x Hx. apply Hcuts in Hx. lia. }
  rewrite (remove_at_from_step_any cuts t (S o) p); cycle 1.
  { lia. } { apply Hcuts. tauto. } { intros x Hx. apply Hcuts in Hx. lia. }
  rewrite (remove_at_from_step_any cuts t (S p) q); cycle 1.
  { lia. } { apply Hcuts. tauto. } { intros x Hx. apply Hcuts in Hx. lia. }
  rewrite (remove_at_from_outside cuts (skipn (S q) t)).
  - reflexivity.
  - intros x Hx. apply Hcuts in Hx. lia.
Qed.

Lemma In_py_slice t (i j : Z) (x : A) :
  In x (py_slice t i j) -> In x t.
Proof.
  unfold py_slice.
  set (a := Z.to_nat _). set (b := Z.to_nat _). intros H.
  rewrite <- (firstn_skipn b t). apply in_or_app. left.
  rewrite <- (firstn_skipn a (firstn b t)). apply in_or_app. now right.
Qed.

Lemma In_py_slice_from t (i : Z) (x : A) :
  In x (py_slice_from t i) -> In x t.
Proof.
  unfold py_slice_from. set (a := Z.to_nat _). intros H.
  rewrite <- (firstn_skipn a t). apply in_or_app. now right.
Qed.

Lemma length_py_slice t (i j : Z) :
  (List.length (py_slice t i j) <= List.length t)%nat.
Proof.
  unfold py_slice. rewrite length_skipn, length_firstn. lia.
Qed.

End MoreSequenceFacts.

(** X1: for cut-points that are not negative and do not decrease, the
    reassembly is the token without the characters at the cut indices,
    also when cut-points are equal (the character goes once) or lie at or
    beyond the end (nothing goes there). *)
Theorem reassemble_ordered_cuts :
  forall (A : Type) (t : list A) (n l o p q : Z),
    0 <= n <= l -> l <= o -> o <= p -> p <= q ->
    reassemble t n l o p q = remove_at [n; l; o; p; q] t.
Proof.
  intros A t n l o p q Hnl Hlo Hop Hpq.
  rewrite reassemble_nonneg by lia.
  rewrite <- (remove_five_ordered t (Z.to_nat n) (Z.to_nat l) (Z.to_nat o)
                (Z.to_nat p) (Z.to_nat q)) by lia.
  cbn [map]. rewrite !Z2Nat.id by lia. reflexivity.
Qed.

Lemma reassemble_ordered_cuts_witness :
  reassemble (list_ascii_of_string "abcdef") 2 2 4 9 9
  = list_ascii_of_string "abdf".
Proof.
  rewrite (reassemble_ordered_cuts ascii (list_ascii_of_string "abcdef")
             2 2 4 9 9) by lia.
  reflexivity.
Defined.

(** X2: whatever the cut-points, negative ones included, the reassembly
    only has characters of the token, and no segment is longer than the
    token. *)
Theorem reassemble_only_token_characters :
  forall (A : Type) (t : list A) (n l o p q : Z) (x : A),
    (In x (reassemble t n l o p q) -> In x t)
    /\ (List.length (reassemble t n l o p q) <= 6 * List.length t)%nat.
Proof.
  intros A t n l o p q x. split.
  - unfold reassemble. intros H.
    repeat (apply in_app_or in H; destruct H as [H | H];
            [now apply In_py_slice in H |]).
    now apply In_py_slice_from in H.
  - unfold reassemble. rewrite !length_app.
    pose proof (length_py_slice t 0 n).
    pose proof (length_py_slice t (n + 1) l).
    pose proof (length_py_slice t (l + 1) o).
    pose proof (length_py_slice t (o + 1) p).
    pose proof (length_py_slice t (p + 1) q).
    assert (List.length (py_slice_from t (q + 1)) <= List.length t)%nat.
    { unfold py_slice_from. rewrite length_skipn. lia. }
    lia.
Qed.

(** ** The parser on responses without tokens and on a failing module *)

(** X3: a response with five good salts and no [accessToken] makes the
    parser raise the bare [KeyError] of the lookup, not its invalid-salt
    error, and only after the ten transform calls were made; the same
    holds for a missing [refreshToken]. *)
Theorem parse_token_response_missing_token :
  forall (O : Type) (parser : NepseTokenParser)
         (d : list (string * pyval)) (st : State O)
         (s1 s2 s3 s4 s5 : Z) (missing : string),
    salt_of (PDict d) "salt1" = Ok s1 -> salt_of (PDict d) "salt2" = Ok s2 ->
    salt_of (PDict d) "salt3" = Ok s3 -> salt_of (PDict d) "salt4" = Ok s4 ->
    salt_of (PDict d) "salt5" = Ok s5 ->
    (forall name args,
        In (EvInvocate name args) (transform_calls s1 s2 s3 s4 s5) ->
        exists z, invocate_first parser name args = Ok z) ->
    (missing = "accessToken" /\ dict_get d "accessToken" = None
     \/ missing = "refreshToken" /\ dict_get d "accessToken" <> None
        /\ dict_get d "refreshToken" = None) ->
    parse_token_response parser (PDict d) st
    = (Raise (KeyError (PStr missing)),
       extend st (transform_calls s1 s2 s3 s4 s5)).
Proof.
  intros O parser d st s1 s2 s3 s4 s5 missing H1 H2 H3 H4 H5 Hcalls Hmiss.
  assert (Hcall : forall name args,
             In (EvInvocate name args) (transform_calls s1 s2 s3 s4 s5) ->
             exists z, invocate_first parser name args = Ok z)
    by exact Hcalls.
  destruct (Hcall "cdx" [s1; s2; s3; s4; s5]) as [n Hn]; [cbn; tauto |].
  destruct (Hcall "rdx" [s1; s2; s4; s3; s5]) as [l Hl]; [cbn; tauto |].
  destruct (Hcall "bdx" [s1; s2; s4; s3; s5]) as [o Ho]; [cbn; tauto |].
  destruct (Hcall "ndx" [s1; s2; s4; s3; s5]) as [p Hp]; [cbn; tauto |].
  destruct (Hcall "mdx" [s1; s2; s4; s3; s5]) as [q Hq]; [cbn; tauto |].
  destruct (Hcall "cdx" [s2; s1; s3; s5; s4]) as [a Ha]; [cbn; tauto |].
  destruct (Hcall "rdx" [s2; s1; s3; s4; s5]) as [b Hb]; [cbn; tauto |].
  destruct (Hcall "bdx" [s2; s1; s4; s3; s5]) as [c Hc]; [cbn; tauto |].
  destruct (Hcall "ndx" [s2; s1; s4; s3; s5]) as [d' Hd]; [cbn; tauto |].
  destruct (Hcall "mdx" [s2; s1; s4; s3; s5]) as [e He]; [cbn; tauto |].
  destruct st as [ob h].
  unfold parse_token_response, try_except, bind, lift, invocate0, log,
    ret, raise, extend, transform_calls.
  cbn. rewrite H1, H2, H3, H4, H5. cbn.
  rewrite Hn, Hl, Ho, Hp, Hq, Ha, Hb, Hc, Hd, He. cbn.
  rewrite <- !app_assoc. cbn.
  unfold py_getitem_str.
  destruct Hmiss as [[-> Hacc] | [-> [Hacc Href]]].
  - rewrite Hacc. reflexivity.
  - destruct (dict_get d "accessToken") as [tok |]; [| congruence].
    rewrite Href. reflexivity.
Qed.

Lemma parse_token_response_missing_token_witness :
  parse_token_response sample_parser
    (PDict [("salt1", PInt 1); ("salt2", PInt 2); ("salt3", PInt 3);
            ("salt4", PInt 4); ("salt5", PInt 5);
            ("accessToken", PStr "abcdefghijklmnopqrst")])
    fresh_state
  = (Raise (KeyError (PStr "refreshToken")),
     extend fresh_state (transform_calls 1 2 3 4 5)).
Proof.
  apply (parse_token_response_missing_token Nepse sample_parser
           [("salt1", PInt 1); ("salt2", PInt 2); ("salt3", PInt 3);
            ("salt4", PInt 4); ("salt5", PInt 5);
            ("accessToken", PStr "abcdefghijklmnopqrst")]
           fresh_state 1 2 3 4 5 "refreshToken");
    try reflexivity.
  - intros name args Hin. cbn in Hin.
    repeat (destruct Hin as [[= <- <-] | Hin];
            [eexists; reflexivity |]).
    destruct Hin.
  - right. split; [reflexivity | split; [discriminate | reflexivity]].
Defined.

(** X4: when the first transform call fails, because the module raises or
    because it returns no result, the parser raises that exception
    ([IndexError] for an empty result) unchanged and makes no further
    call: the history has the one call. *)
Theorem parse_token_response_transform_failure :
  forall (O : Type) (parser : NepseTokenParser) (rd : pyval) (st : State O)
         (s1 s2 s3 s4 s5 : Z) (e : exn),
    salt_of rd "salt1" = Ok s1 -> salt_of rd "salt2" = Ok s2 ->
    salt_of rd "salt3" = Ok s3 -> salt_of rd "salt4" = Ok s4 ->
    salt_of rd "salt5" = Ok s5 ->
    (invocate parser "cdx" [s1; s2; s3; s4; s5] = Raise e
     \/ invocate parser "cdx" [s1; s2; s3; s4; s5] = Ok [] /\ e = IndexError) ->
    parse_token_response parser rd st
    = (Raise e, extend st [EvInvocate "cdx" [s1; s2; s3; s4; s5]]).
Proof.
  intros O parser rd st s1 s2 s3 s4 s5 e H1 H2 H3 H4 H5 Hfail.
  assert (Hf : invocate_first parser "cdx" [s1; s2; s3; s4; s5] = Raise e).
  { unfold invocate_first, rbind.
    destruct Hfail as [-> | [-> ->]]; reflexivity. }
  destruct st as [ob h].
  unfold parse_token_response, try_except, bind, lift, invocate0, log,
    ret, raise, extend.
  cbn. rewrite H1, H2, H3, H4, H5. cbn. rewrite Hf. reflexivity.
Qed.

Lemma parse_token_response_transform_failure_witness :
  parse_token_response {| invocate := fun _ _ => Ok [] |}
    sample_auth_body fresh_state
  = (Raise IndexError, extend fresh_state [EvInvocate "cdx" [1; 2; 3; 4; 5]]).
Proof.
  apply (parse_token_response_transform_failure Nepse
           {| invocate := fun _ _ => Ok [] |} sample_auth_body fresh_state
           1 2 3 4 5 IndexError); try reflexivity.
  right. split; reflexivity.
Defined.

(** ** [int()] on decimal strings *)

Lemma digits_of_plain (d : Decimal.uint) (c : ascii) :
  In c (digits_of d) ->
  is_space c = false /\ Ascii.eqb c "-" = false /\ Ascii.eqb c "+" = false.
Proof.
  unfold digits_of.
  induction d; cbn [NilEmpty.string_of_uint list_ascii_of_string In];
    intros H; try contradiction;
    (destruct H as [<- | H]; [repeat split; reflexivity | auto]).
Qed.

Lemma length_digits_of (d : Decimal.uint) :
  List.length (digits_of d) = Decimal.nb_digits d.
Proof.
  unfold digits_of.
  induction d; cbn [NilEmpty.string_of_uint list_ascii_of_string
                    List.length Decimal.nb_digits]; congruence.
Qed.

Lemma read_digits_acc (d : Decimal.uint) (acc : positive) (count : nat) :
  read_digits true (Z.pos acc) count (digits_of d)
  = Some (Z.pos (Pos.of_uint_acc d acc), (count + Decimal.nb_digits d)%nat).
Proof.
  unfold digits_of. revert acc count.
  induction d; intros acc count;
    cbn [NilEmpty.string_of_uint list_ascii_of_string Pos.of_uint_acc
         Decimal.nb_digits];
    [ cbn; now rewrite Nat.add_0_r | .. ];
    cbn [read_digits];
    (match goal with
     | |- context [digit_value ?c] =>
         let v := eval vm_compute in (digit_value c) in
         change (digit_value c) with v
     end);
    cbv beta iota;
    (match goal with
     | |- read_digits true ?z _ _ = Some (Z.pos (Pos.of_uint_acc _ ?a), _) =>
         replace z with (Z.pos a) by lia
     end);
    rewrite IHd; do 2 f_equal; lia.
Qed.

Lemma read_digits_zero (d : Decimal.uint) (after : bool) (count : nat) :
  after = true \/ d <> Decimal.Nil ->
  read_digits after 0 count (digits_of d)
  = Some (Z.of_N (Pos.of_uint d), (count + Decimal.nb_digits d)%nat).
Proof.
  unfold digits_of. revert after count.
  induction d; intros after count Hok;
    cbn [NilEmpty.string_of_uint list_ascii_of_string Pos.of_uint
         Decimal.nb_digits].
  - destruct Hok as [-> | H]; [| congruence].
    cbn. now rewrite Nat.add_0_r.
  - cbn [read_digits].
    change (digit_value "0") with (Some 0). cbv beta iota.
    change (10 * 0 + 0) with 0.
    fold (digits_of d). unfold digits_of.
    rewrite IHd by auto. do 2 f_equal. lia.
  - cbn [read_digits]. change (digit_value "1") with (Some 1).
    cbv beta iota. change (10 * 0 + 1) with (Z.pos 1).
    fold (digits_of d). rewrite read_digits_acc. do 2 f_equal. lia.
  - cbn [read_digits]. change (digit_value "2") with (Some 2).
    cbv beta iota. change (10 * 0 + 2) with (Z.pos 2).
    fold (digits_of d). rewrite read_digits_acc. do 2 f_equal. lia.
  - cbn [read_digits]. change (digit_value "3") with (Some 3).
    cbv beta iota. change (10 * 0 + 3) with (Z.pos 3).
    fold (digits_of d). rewrite read_digits_acc. do 2 f_equal. lia.
  - cbn [read_digits]. change (digit_value "4") with (Some 4).
    cbv beta iota. change (10 * 0 + 4) with (Z.pos 4).
    fold (digits_of d). rewrite read_digits_acc. do 2 f_equal. lia.
  - cbn [read_digits]. change (digit_value "5") with (Some 5).
    cbv beta iota. change (10 * 0 + 5) with (Z.pos 5).
    fold (digits_of d). rewrite read_digits_acc. do 2 f_equal. lia.
  - cbn [read_digits]. change (digit_value "6") with (Some 6).
    cbv beta iota. change (10 * 0 + 6) with (Z.pos 6).
    fold (digits_of d). rewrite read_digits_acc. do 2 f_equal. lia.
  - cbn [read_digits]. change (digit_value "7") with (Some 7).
    cbv beta iota. change (10 * 0 + 7) with (Z.pos 7).
    fold (digits_of d). rewrite read_digits_acc. do 2 f_equal. lia.
  - cbn [read_digits]. change (digit_value "8") with (Some 8).
    cbv beta iota. change (10 * 0 + 8) with (Z.pos 8).
    fold (digits_of d). rewrite read_digits_acc. do 2 f_equal. lia.
  - cbn [read_digits]. change (digit_value "9") with (Some 9).
    cbv beta iota. change (10 * 0 + 9) with (Z.pos 9).
    fold (digits_of d). rewrite read_digits_acc. do 2 f_equal. lia.
Qed.

Lemma lstrip_plain (cs : list ascii) :
  (forall c, In c cs -> is_space c = false) -> lstrip cs = cs.
Proof.
  destruct cs as [| c r]; [reflexivity |].
  intros H. cbn [lstrip]. rewrite (H c) by (left; reflexivity). reflexivity.
Qed.

Lemma strip_plain (cs : list ascii) :
  (forall c, In c cs -> is_space c = false) -> strip cs = cs.
Proof.
  intros H. unfold strip.
  rewrite (lstrip_plain cs H).
  rewrite lstrip_plain.
  - apply rev_involutive.
  - intros c Hc. apply H. now apply in_rev.
Qed.

Lemma int_of_str_decimal (z : Z) :
  (String.length (decimal z) <= 4300)%nat ->
  int_of_str (decimal z) = Ok z.
Proof.
  intros Hlen. unfold decimal in *.
  destruct z as [| p | p]; [reflexivity | |];
    cbn [Z.to_int NilZero.string_of_int] in *.
  - pose proof (DecimalPos.Unsigned.to_uint_nonnil p) as Hnil.
    assert (Hs : NilZero.string_of_uint (Pos.to_uint p)
                 = NilEmpty.string_of_uint (Pos.to_uint p)).
    { destruct (Pos.to_uint p); [congruence | reflexivity ..]. }
    rewrite Hs in *. unfold int_of_str.
    fold (digits_of (Pos.to_uint p)).
    rewrite strip_plain by (intros c Hc; now apply digits_of_plain in Hc).
    assert (Hsign :
      match digits_of (Pos.to_uint p) with
      | c :: r =>
          if Ascii.eqb c "-" then (true, r)
          else if Ascii.eqb c "+" then (false, r)
          else (false, digits_of (Pos.to_uint p))
      | [] => (false, [])
      end = (false, digits_of (Pos.to_uint p))).
    { destruct (digits_of (Pos.to_uint p)) as [| c r] eqn:E; [reflexivity |].
      destruct (digits_of_plain (Pos.to_uint p) c) as (_ & -> & ->);
        [rewrite E; left; reflexivity | reflexivity]. }
    rewrite Hsign.
    rewrite read_digits_zero by (right; assumption).
    rewrite DecimalPos.Unsigned.of_to.
    rewrite <- length_digits_of. unfold digits_of.
    rewrite length_list_ascii_of_string.
    replace (Nat.ltb max_str_digits _) with false; [reflexivity |].
    symmetry. apply Nat.ltb_ge. unfold max_str_digits. cbn. exact Hlen.
  - pose proof (DecimalPos.Unsigned.to_uint_nonnil p) as Hnil.
    assert (Hs : NilZero.string_of_uint (Pos.to_uint p)
                 = NilEmpty.string_of_uint (Pos.to_uint p)).
    { destruct (Pos.to_uint p); [congruence | reflexivity ..]. }
    rewrite Hs in *. unfold int_of_str.
    cbn [list_ascii_of_string]. fold (digits_of (Pos.to_uint p)).
    rewrite strip_plain.
    2:{ intros c [<- | Hc]; [reflexivity | now apply digits_of_plain in Hc]. }
    change (Ascii.eqb "-" "-") with true. cbv beta iota.
    rewrite read_digits_zero by (right; assumption).
    rewrite DecimalPos.Unsigned.of_to.
    rewrite <- length_digits_of. unfold digits_of.
    rewrite length_list_ascii_of_string.
    replace (Nat.ltb max_str_digits _) with false; [reflexivity |].
    symmetry. apply Nat.ltb_ge. unfold max_str_digits.
    cbn [String.length] in Hlen. lia.
Qed.

(** X5: [int(str(z))] is [z]: a salt that the portal sends as the decimal
    string of an integer (of at most 4300 characters, the limit of
    [int()] on strings) is parsed to that integer. *)
Theorem salt_of_decimal_string :
  forall (d : list (string * pyval)) (field : string) (z : Z),
    dict_get d field = Some (PStr (py_str (PInt z))) ->
    (String.length (py_str (PInt z)) <= 4300)%nat ->
    salt_of (PDict d) field = Ok z
    /\ py_int (PStr (py_str (PInt z))) = Ok z.
Proof.
  intros d field z Hget Hlen.
  cbn [py_str py_repr] in *.
  pose proof (int_of_str_decimal z Hlen) as H.
  split; [| exact H].
  unfold salt_of, rbind, py_getitem_str. rewrite Hget. exact H.
Qed.

Lemma salt_of_decimal_string_witness :
  salt_of (PDict [("salt1", PStr "-1200")]) "salt1" = Ok (-1200).
Proof.
  apply (salt_of_decimal_string [("salt1", PStr "-1200")] "salt1" (-1200));
    [reflexivity | vm_compute; lia].
Defined.

(** ** The cache *)

Section DictFacts.
Context {V : Type}.
Implicit Types (d : list (string * V)).


Lemma dict_get_set_other d k k' (x : V) :
  k <> k' -> dict_get (dict_set d k x) k' = dict_get d k'.
Proof.
  intros Hne. induction d as [| [k0 y] r IH]; cbn.
  - destruct (String.eqb k' k) eqn:E; [| reflexivity].
    apply String.eqb_eq in E. congruence.
  - destruct (String.eqb k k0) eqn:E; cbn.
    + apply String.eqb_eq in E. subst k0.
      destruct (String.eqb k' k) eqn:E'; [| reflexivity].
      apply String.eqb_eq in E'. congruence.
    + now rewrite IH.
Qed.

Lemma dict_get_absent d k :
  ~ In k (map fst d) -> dict_get d k = None.
Proof.
  induction d as [| [k' y] r IH]; cbn; [reflexivity |].
  intros Hn. destruct (String.eqb k k') eqn:E.
  - apply String.eqb_eq in E. subst. tauto.
  - apply IH. tauto.
Qed.

Lemma dict_get_del_same d k :
  unique_keys d -> dict_get (dict_del d k) k = None.
Proof.
  unfold unique_keys. induction d as [| [k' y] r IH]; cbn; intros Hu.
  - reflexivity.
  - inversion Hu as [| ? ? Hnotin Hrest]; subst.
    destruct (String.eqb k k') eqn:E.
    + apply String.eqb_eq in E. subst k'. now apply dict_get_absent.
    + cbn. rewrite E. now apply IH.
Qed.

Lemma dict_get_del_other d k k' :
  k <> k' -> dict_get (dict_del d k) k' = dict_get d k'.
Proof.
  intros Hne. induction d as [| [k0 y] r IH]; cbn; [reflexivity |].
  destruct (String.eqb k k0) eqn:E; cbn.
  - apply String.eqb_eq in E. subst k0.
    destruct (String.eqb k' k) eqn:E'; [| reflexivity].
    apply String.eqb_eq in E'. congruence.
  - now rewrite IH.
Qed.

End DictFacts.

Lemma not_expired (now expires_at : Q) :
  (now < expires_at)%Q -> negb (Qle_bool expires_at now) = true.
Proof.
  intros Hlt. destruct (Qle_bool expires_at now) eqn:E; [| reflexivity].
  apply Qle_bool_iff in E. exfalso. now apply (Qlt_not_le _ _ Hlt).
Qed.

Lemma expired (now expires_at : Q) :
  (expires_at <= now)%Q -> negb (Qle_bool expires_at now) = false.
Proof.
  intros Hle. apply Qle_bool_iff in Hle. now rewrite Hle.
Qed.



(** X7: a [CacheManager.get] at or after the expiry time of an entry
    returns [None] and deletes that entry, and no other: the key is gone
    from the cache, the other keys keep what they had. *)
Theorem cache_get_expired :
  forall (W : World) (st : State Nepse) (c : CacheManager)
         (key : string) (value : pyval) (expires_at : Q),
    cache (self st) = Some c ->
    unique_keys (_cache c) ->
    dict_get (_cache c) key = Some (value, expires_at) ->
    (expires_at <= clock W (history st))%Q ->
    exists c',
      CacheManager_get W key st
      = (Ok PNone,
         {| self := set_cache (Some c') (self st);
            history := history st ++ [EvClock] |})
      /\ dict_get (_cache c') key = None
      /\ (forall k, k <> key -> dict_get (_cache c') k = dict_get (_cache c) k)
      /\ default_ttl c' = default_ttl c.
Proof.
  intros W st c key value expires_at Hc Hu Hget Hexp.
  destruct st as [o h]. cbn [self history] in *.
  exists {| _cache := dict_del (_cache c) key; default_ttl := default_ttl c |}.
  split; [| split; [| split]].
  - unfold CacheManager_get, bind, get_self, modify_self, time_time, ret.
    cbn [self history]. rewrite Hc, Hget.
    cbn [self history]. rewrite (expired _ _ Hexp). reflexivity.
  - cbn. now apply dict_get_del_same.
  - intros k Hk. cbn. apply dict_get_del_other. congruence.
  - reflexivity.
Qed.

Lemma cache_get_expired_witness :
  let c := {| _cache := [("k", (PInt 7, (1 # 1)%Q)); ("j", (PInt 8, (1 # 1)%Q))];
              default_ttl := 30 |} in
  let st := {| self := set_cache (Some c) (new_Nepse sample_parser 30 true);
               history := [] |} in
  exists c',
    CacheManager_get sample_world "k" st
    = (Ok PNone,
       {| self := set_cache (Some c') (self st);
          history := history st ++ [EvClock] |})
    /\ dict_get (_cache c') "k" = None
    /\ (forall k, k <> "k" -> dict_get (_cache c') k = dict_get (_cache c) k)
    /\ default_ttl c' = default_ttl c.
Proof.
  cbv zeta.
  apply (cache_get_expired sample_world _ _ "k" (PInt 7) (1 # 1)%Q).
  - reflexivity.
  - unfold unique_keys. cbn. repeat constructor; cbn; intuition discriminate.
  - reflexivity.
  - cbn. unfold Qle. cbn. lia.
Defined.

(** X8: after [clear_cache] every key is absent: a [CacheManager.get]
    returns [None] without reading the clock and changes nothing; the
    default lifetime is kept.  On a session without a cache
    [clear_cache] does nothing. *)
Theorem clear_cache_empties :
  forall (W : World) (st : State Nepse),
    match cache (self st) with
    | Some c =>
        let st1 := {| self := set_cache
                                (Some {| _cache := [];
                                         default_ttl := default_ttl c |})
                                (self st);
                      history := history st |} in
        clear_cache st = (Ok tt, st1)
        /\ forall key, CacheManager_get W key st1 = (Ok PNone, st1)
    | None => clear_cache st = (Ok tt, st)
    end.
Proof.
  intros W st. destruct st as [o h]. cbn [self history].
  destruct (cache o) as [c |] eqn:Hc.
  - split.
    + unfold clear_cache, CacheManager_clear, bind, get_self, modify_self.
      cbn [self history]. rewrite Hc. cbn. rewrite Hc. reflexivity.
    + intros key. reflexivity.
  - unfold clear_cache, bind, get_self. cbn [self history].
    rewrite Hc. reflexivity.
Qed.

(** ** Fetching through the cache *)

Section FetchFacts.
Variable W : World.

Lemma get_auth_headers_of_held (st : State Nepse) (url : string) :
  py_truthy (access_token (self st)) = true ->
  _get_auth_headers W st = (Ok (req_headers (get_request (self st) url)), st).
Proof.
  intros Hheld. unfold _get_auth_headers, bind, get_self, ret.
  cbv beta iota. rewrite Hheld. reflexivity.
Qed.

(** On a session that holds an access token, [fetch] is one GET. *)
Lemma fetch_held (st : State Nepse) (url : string) :
  py_truthy (access_token (self st)) = true ->
  fetch W url st
  = (checked_json (net W (history st) (get_request (self st) url)),
     extend st [EvRequest (get_request (self st) url)]).
Proof.
  intros Hheld. unfold fetch.
  rewrite bind_run, (get_auth_headers_of_held st url Hheld).
  rewrite bind_run. unfold session_request, checked_json, extend.
  change {| req_method := GET; req_url := url;
            req_headers := req_headers (get_request (self st) url);
            req_json := None |}
    with (get_request (self st) url).
  destruct (net W (history st) (get_request (self st) url)) as [r | e];
    [| reflexivity].
  rewrite bind_run. unfold raise_for_status.
  destruct ((400 <=? status_code r) && (status_code r <? 600));
    [reflexivity |].
  unfold ret at 1. cbv beta iota. unfold json.
  destruct (body r); reflexivity.
Qed.

Lemma fetch_unchecked_held (st : State Nepse) (url : string) :
  py_truthy (access_token (self st)) = true ->
  fetch_unchecked W url st
  = (unchecked_json (net W (history st) (get_request (self st) url)),
     extend st [EvRequest (get_request (self st) url)]).
Proof.
  intros Hheld. unfold fetch_unchecked.
  rewrite bind_run, (get_auth_headers_of_held st url Hheld).
  rewrite bind_run. unfold session_request, unchecked_json, extend.
  change {| req_method := GET; req_url := url;
            req_headers := req_headers (get_request (self st) url);
            req_json := None |}
    with (get_request (self st) url).
  destruct (net W (history st) (get_request (self st) url)) as [r | e];
    [| reflexivity].
  unfold json. destruct (body r); reflexivity.
Qed.

(** A cache hit: one clock reading, nothing else. *)
Lemma cached_get_hit (st : State Nepse) (c : CacheManager)
      (key url : string) (ttl : option Z) (v : pyval) (expires_at : Q) :
  cache (self st) = Some c ->
  dict_get (_cache c) key = Some (v, expires_at) ->
  is_none v = false ->
  (clock W (history st) < expires_at)%Q ->
  _cached_get W key url ttl st = (Ok v, extend st [EvClock]).
Proof.
  intros Hc Hget Hv Hfresh. destruct st as [o h]. cbn [self history] in *.
  unfold _cached_get, CacheManager_get, bind, get_self, time_time, ret.
  cbn [self history]. rewrite Hc. cbn [is_some self history].
  rewrite Hc, Hget. cbn [self history].
  rewrite (not_expired _ _ Hfresh). rewrite Hv. reflexivity.
Qed.

(** A cache miss on a session that holds an access token: the GET, and
    when it gives a value, the clock reading of [set] and the new entry. *)
Lemma cached_get_miss (st : State Nepse) (c : CacheManager)
      (key url : string) (ttl : option Z) :
  cache (self st) = Some c ->
  dict_get (_cache c) key = None ->
  py_truthy (access_token (self st)) = true ->
  let req := get_request (self st) url in
  _cached_get W key url ttl st =
    match checked_json (net W (history st) req) with
    | Ok data =>
        (Ok data,
         {| self :=
              set_cache
                (Some {| _cache :=
                           dict_set (_cache c) key
                             (data,
                              (clock W (history st ++ [EvRequest req])
                               + inject_Z (lifetime c ttl))%Q);
                         default_ttl := default_ttl c |})
                (self st);
            history := history st ++ [EvRequest req; EvClock] |})
    | Raise e => (Raise e, extend st [EvRequest req])
    end.
Proof.
  intros Hc Hget Hheld req.
  unfold _cached_get.
  rewrite bind_run. unfold get_self at 1. cbv beta iota.
  rewrite Hc. cbn [is_some].
  rewrite bind_run.
  assert (Hmiss : CacheManager_get W key st = (Ok PNone, st)).
  { unfold CacheManager_get, bind, get_self, ret. cbv beta iota.
    rewrite Hc, Hget. reflexivity. }
  rewrite Hmiss. cbn [is_none negb].
  rewrite bind_run, (fetch_held st url Hheld). fold req.
  destruct (checked_json (net W (history st) req)) as [data | e];
    [| reflexivity].
  destruct st as [o h]. cbn [self history] in *.
  unfold CacheManager_set, bind, get_self, time_time, modify_self, ret,
    extend, lifetime.
  cbn [self history]. rewrite Hc. cbn [is_some self history].
  rewrite Hc. cbn [self history]. rewrite <- app_assoc. reflexivity.
Qed.

End FetchFacts.

(** X9: with the cache in use, an entry that is not [None] and has not
    expired is what [get_market_status], [get_market_summary] and
    [get_nepse_index] return: they read the clock once, send no request
    and do not authenticate, whether or not the session holds a token. *)
Theorem cached_entry_served_without_request :
  forall (W : World) (st : State Nepse) (c : CacheManager)
         (key : string) (v : pyval) (expires_at : Q),
    cache (self st) = Some c ->
    dict_get (_cache c) key = Some (v, expires_at) ->
    is_none v = false ->
    (clock W (history st) < expires_at)%Q ->
    (key = "market_status" ->
     get_market_status W true st = (Ok v, extend st [EvClock]))
    /\ (key = "market_summary" ->
        get_market_summary W true st = (Ok v, extend st [EvClock]))
    /\ (key = "nepse_index" ->
        get_nepse_index W true st = (Ok v, extend st [EvClock])).
Proof.
  intros W st c key v expires_at Hc Hget Hv Hfresh.
  repeat split; intros ->.
  - unfold get_market_status. rewrite bind_run.
    unfold get_self at 1. cbv beta iota. rewrite Hc. cbn [andb is_some].
    eapply cached_get_hit; eassumption.
  - unfold get_market_summary. rewrite bind_run.
    unfold get_self at 1. cbv beta iota. rewrite Hc. cbn [andb is_some].
    eapply cached_get_hit; eassumption.
  - unfold get_nepse_index. rewrite bind_run.
    unfold get_self at 1. cbv beta iota. rewrite Hc. cbn [andb is_some].
    eapply cached_get_hit; eassumption.
Qed.

Lemma cached_entry_served_without_request_witness :
  get_market_status sample_world true cached_status_state
  = (Ok sample_status, extend cached_status_state [EvClock]).
Proof.
  apply (cached_entry_served_without_request sample_world
           cached_status_state status_cache
           "market_status" sample_status (2000000000 # 1)%Q);
    reflexivity.
Defined.



(** X11: with the cache in use and no entry, when the GET of
    [get_market_summary] fails (transport error, 4xx or 5xx, undecodable
    body) the exception reaches the caller and the session, its cache
    included, is as before: a failure is not cached. *)
Theorem market_summary_failure_not_cached :
  forall (W : World) (st : State Nepse) (c : CacheManager) (e : exn),
    cache (self st) = Some c ->
    dict_get (_cache c) "market_summary" = None ->
    py_truthy (access_token (self st)) = true ->
    let req := get_request (self st) market_summary_url in
    checked_json (net W (history st) req) = Raise e ->
    get_market_summary W true st = (Raise e, extend st [EvRequest req]).
Proof.
  intros W st c e Hc Hmiss Hheld req Hfail.
  unfold get_market_summary. rewrite bind_run.
  unfold get_self at 1. cbv beta iota. rewrite Hc. cbn [andb is_some].
  rewrite (cached_get_miss W st c _ _ None Hc Hmiss Hheld).
  fold req. rewrite Hfail. reflexivity.
Qed.

Lemma market_summary_failure_not_cached_witness :
  get_market_summary sample_world true sample_cached_state
  = (Raise ConnectionError,
     extend sample_cached_state
       [EvRequest (get_request (self sample_cached_state)
                               market_summary_url)]).
Proof.
  apply (market_summary_failure_not_cached sample_world sample_cached_state
           empty_cache ConnectionError);
    reflexivity.
Defined.

(** ** More on [authenticate] *)

(** X12: an [authenticate()] that raises leaves the session object as it
    was, credentials included: for [Nepse], for [MyNepseSession] and for
    [AsyncNepse]. *)
Theorem failed_authenticate_keeps_session :
  forall (W : World) (e : exn),
    (forall (st st' : State Nepse),
        authenticate W st = (Raise e, st') -> self st' = self st)
    /\ (forall (st st' : State MyNepseSession.t),
           MyNepseSession.authenticate W st = (Raise e, st') ->
           self st' = self st)
    /\ (forall (st st' : State AsyncNepse.t),
           AsyncNepse.authenticate W st = (Raise e, st') ->
           self st' = self st).
Proof.
  intros W e. split; [| split]; intros [o h] st'.
  - unfold authenticate, bind, log, session_request, raise_for_status, json,
      get_self, modify_self, time_time, raise, ret.
    cbn.
    repeat (destruct_transport; cbn); try (intros [= <- <-]; reflexivity).
    rewrite parse_token_response_anywhere. cbn.
    destruct (parse_outcome (token_parser o) data)
      as [[[[a r] s] | err] evs]; cbn;
      [discriminate | intros [= <- <-]; reflexivity].
  - unfold MyNepseSession.authenticate, bind, log, session_request,
      raise_for_status, json, get_self, modify_self, time_time, raise, ret.
    cbn.
    repeat (destruct_transport; cbn); try (intros [= <- <-]; reflexivity).
    rewrite parse_token_response_anywhere. cbn.
    destruct (parse_outcome (MyNepseSession.token_parser o) data)
      as [[[[a r] s] | err] evs]; cbn;
      [discriminate | intros [= <- <-]; reflexivity].
  - unfold AsyncNepse.authenticate, bind, log, session_request, json,
      get_self, modify_self, raise, ret.
    cbn.
    repeat (destruct_transport; cbn); try (intros [= <- <-]; reflexivity).
    rewrite parse_token_response_anywhere. cbn.
    destruct (parse_outcome (AsyncNepse.token_parser o) data)
      as [[[[a r] s] | err] evs]; cbn;
      [discriminate | intros [= <- <-]; reflexivity].
Qed.

Lemma failed_authenticate_keeps_session_witness :
  fst (authenticate steady_world sample_state)
  = Raise (InvalidSaltData (TypeError "list"))
  /\ self (snd (authenticate steady_world sample_state)) = self sample_state.
Proof.
  split; [reflexivity |].
  destruct (failed_authenticate_keeps_session steady_world
              (InvalidSaltData (TypeError "list"))) as [H _].
  apply H. reflexivity.
Defined.

(** X13: an [authenticate()] that returns has replaced the credentials
    wholesale: the same run from the same history gives the same session
    whatever access token, refresh token, salts and timestamp were held
    before, and the timestamp stored is the clock reading made last,
    truncated to seconds. *)
Theorem authenticate_replaces_credentials :
  forall (W : World) (st st' : State Nepse),
    authenticate W st = (Ok tt, st') ->
    (forall (a0 r0 s0 : pyval) (t0 : Z),
        authenticate W
          {| self := set_token_timestamp t0
                       (set_credentials a0 r0 s0 (self st));
             history := history st |}
        = (Ok tt, st'))
    /\ exists h,
         history st' = h ++ [EvClock]
         /\ token_timestamp (self st') = int_of_time (clock W h).
Proof.
  intros W [o h] st'.
  unfold authenticate, bind, log, session_request, raise_for_status, json,
    get_self, modify_self, time_time, raise, ret.
  cbn.
  repeat (destruct_transport; cbn); try discriminate.
  rewrite !parse_token_response_anywhere. cbn.
  intros H. split.
  - intros a0 r0 s0 t0. rewrite !parse_token_response_anywhere. cbn.
    destruct (parse_outcome (token_parser o) data)
      as [[[[a r] s] | err] evs]; cbn in *; [| discriminate].
    injection H as <-. reflexivity.
  - destruct (parse_outcome (token_parser o) data)
      as [[[[a r] s] | err] evs]; cbn in *; [| discriminate].
    injection H as <-. cbn. eexists. split; reflexivity.
Qed.

Lemma authenticate_replaces_credentials_witness :
  authenticate sample_world
    {| self := set_token_timestamp 5
                 (set_credentials (PStr "old") PNone PNone (self fresh_state));
       history := history fresh_state |}
  = (Ok tt, sample_state).
Proof.
  apply (authenticate_replaces_credentials sample_world fresh_state
           sample_state).
  reflexivity.
Defined.

(** ** More on [refresh_auth_token] *)

(** X14: [refresh_auth_token] never raises: from every session and in
    every world it returns a value. *)
Theorem refresh_never_raises :
  forall (W : World) (st : State Nepse),
    exists (v : pyval) (st' : State Nepse),
      refresh_auth_token W st = (Ok v, st').
Proof.
  intros W st. unfold refresh_auth_token, try_except.
  match goal with
  | |- context [match ?m st with _ => _ end] =>
      destruct (m st) as [[v | e] st']
  end.
  - do 2 eexists. reflexivity.
  - do 2 eexists. reflexivity.
Qed.

(** X15: on a session that holds a token, a refresh answered with an
    object that has no [accessToken] changes nothing in the session,
    whatever else the object brings ([salt] and [serverTime] are not
    looked at), and returns the object as it is. *)
Theorem refresh_without_access_token_changes_nothing :
  forall (W : World) (st : State Nepse) (resp : response)
         (d : list (string * pyval)),
    py_truthy (access_token (self st)) = true ->
    net W (history st) (refresh_request (self st)) = Ok resp ->
    (400 <=? status_code resp) && (status_code resp <? 600) = false ->
    body resp = Some (PDict d) ->
    dict_get d "accessToken" = None ->
    refresh_auth_token W st
    = (Ok (PDict d), extend st [EvRequest (refresh_request (self st))]).
Proof.
  intros W st resp d Hheld Hnet Hstatus Hbody Hnone.
  rewrite (refresh_run W st Hheld).
  unfold try_except.
  rewrite bind_run, lift_run, Hnet.
  rewrite bind_run. unfold raise_for_status. rewrite Hstatus.
  unfold ret at 1. cbv beta iota.
  rewrite bind_run. unfold json. rewrite Hbody.
  unfold ret at 1. cbv beta iota.
  rewrite bind_run.
  destruct d as [| kv d'].
  - reflexivity.
  - cbn [py_truthy]. rewrite lift_run. cbn [py_contains].
    rewrite Hnone. reflexivity.
Qed.

Lemma refresh_without_access_token_changes_nothing_witness :
  let W := {| net := fun _ _ =>
                Ok {| status_code := 200;
                      body := Some (PDict [("salt", PNone)]) |};
              clock := fun _ => (5 # 1)%Q |} in
  refresh_auth_token W sample_state
  = (Ok (PDict [("salt", PNone)]),
     extend sample_state [EvRequest (refresh_request (self sample_state))]).
Proof.
  cbv zeta.
  apply (refresh_without_access_token_changes_nothing
           {| net := fun _ _ =>
                Ok {| status_code := 200;
                      body := Some (PDict [("salt", PNone)]) |};
              clock := fun _ => (5 # 1)%Q |}
           sample_state
           {| status_code := 200; body := Some (PDict [("salt", PNone)]) |}
           [("salt", PNone)]);
    reflexivity.
Defined.

(** X16: on a session that holds a token, a refresh answered with an
    object that has an [accessToken] and a [serverTime] that cannot be
    divided (a string, say) has already replaced the access token when the
    exception is caught: the call prints the error and returns the empty
    dict, the new access token stays, and salts, refresh token and
    timestamp are as before, also when the object brings a [salt]. *)
Theorem refresh_bad_server_time_keeps_new_token :
  forall (W : World) (st : State Nepse) (resp : response)
         (d : list (string * pyval)) (a t : pyval) (e : exn),
    py_truthy (access_token (self st)) = true ->
    net W (history st) (refresh_request (self st)) = Ok resp ->
    (400 <=? status_code resp) && (status_code resp <? 600) = false ->
    body resp = Some (PDict d) ->
    dict_get d "accessToken" = Some a ->
    dict_get d "serverTime" = Some t ->
    py_int_of_truediv_1000 t = Raise e ->
    refresh_auth_token W st
    = (Ok (PDict []),
       {| self := set_access_token a (self st);
          history := history st
                     ++ [EvRequest (refresh_request (self st));
                         EvPrint "Error refreshing token: " (Some e)] |}).
Proof.
  intros W st resp d a t e Hheld Hnet Hstatus Hbody Haccess Htime Hdiv.
  rewrite (refresh_run W st Hheld).
  unfold try_except.
  rewrite bind_run, lift_run, Hnet.
  rewrite bind_run. unfold raise_for_status. rewrite Hstatus.
  unfold ret at 1. cbv beta iota.
  rewrite bind_run. unfold json. rewrite Hbody.
  unfold ret at 1. cbv beta iota.
  assert (Htruthy : py_truthy (PDict d) = true).
  { destruct d; [discriminate | reflexivity]. }
  rewrite bind_run, Htruthy. rewrite lift_run.
  cbn [py_contains]. rewrite Haccess.
  destruct st as [o h].
  unfold bind, lift, modify_self, ret, py_getitem_str, extend, log.
  cbn [self history]. rewrite Haccess, Htime. rewrite Hdiv.
  cbn. rewrite <- app_assoc. reflexivity.
Qed.

Lemma refresh_bad_server_time_keeps_new_token_witness :
  let body0 := PDict [("accessToken", PStr "fresh-access");
                      ("serverTime", PStr "soon");
                      ("salt", PList [PInt 6])] in
  let W := {| net := fun _ _ => Ok {| status_code := 200; body := Some body0 |};
              clock := fun _ => (5 # 1)%Q |} in
  refresh_auth_token W sample_state
  = (Ok (PDict []),
     {| self := set_access_token (PStr "fresh-access") (self sample_state);
        history := history sample_state
                   ++ [EvRequest (refresh_request (self sample_state));
                       EvPrint "Error refreshing token: "
                               (Some (TypeError "str"))] |}).
Proof.
  cbv zeta.
  apply (refresh_bad_server_time_keeps_new_token
           {| net := fun _ _ =>
                Ok {| status_code := 200;
                      body := Some (PDict [("accessToken", PStr "fresh-access");
                                           ("serverTime", PStr "soon");
                                           ("salt", PList [PInt 6])]) |};
              clock := fun _ => (5 # 1)%Q |}
           sample_state
           {| status_code := 200;
              body := Some (PDict [("accessToken", PStr "fresh-access");
                                   ("serverTime", PStr "soon");
                                   ("salt", PList [PInt 6])]) |}
           [("accessToken", PStr "fresh-access");
            ("serverTime", PStr "soon");
            ("salt", PList [PInt 6])]
           (PStr "fresh-access") (PStr "soon") (TypeError "str"));
    reflexivity.
Defined.

(** ** The data methods *)

Lemma py_slice_to_list (xs : list pyval) (k : Z) :
  py_slice_to (PList xs) k
  = Ok (PList (if 0 <=? k then firstn (Z.to_nat k) xs
               else firstn (List.length xs - Z.to_nat (- k)) xs)).
Proof.
  unfold py_slice_to, py_slice, adjust_bound.
  change (0 <? 0) with false. cbv beta iota.
  rewrite Z.min_l by lia. change (Z.to_nat 0) with 0%nat. cbn [skipn].
  destruct (k <? 0) eqn:E.
  - apply Z.ltb_lt in E.
    replace (0 <=? k) with false by (symmetry; apply Z.leb_gt; lia).
    do 3 f_equal. lia.
  - apply Z.ltb_ge in E.
    replace (0 <=? k) with true by (symmetry; apply Z.leb_le; lia).
    rewrite Z2Nat.inj_min, Nat2Z.id. now rewrite firstn_min_length.
Qed.

(** X17: [get_top_gainers] and [get_top_losers] with a limit return what
    they return without one, cut down: all of it for a limit of 0, the
    first [k] entries (or all, when there are fewer) for a positive [k],
    and all but the last [-k] entries for a negative [k]; the requests
    made are the same. *)
Theorem top_lists_limit :
  forall (W : World) (use_cache : bool) (st st' : State Nepse)
         (xs : list pyval) (k : Z),
    let cut := if k =? 0 then xs
               else if 0 <=? k then firstn (Z.to_nat k) xs
               else firstn (List.length xs - Z.to_nat (- k)) xs in
    (get_top_gainers W None use_cache st = (Ok (PList xs), st') ->
     get_top_gainers W (Some k) use_cache st = (Ok (PList cut), st'))
    /\ (get_top_losers W None use_cache st = (Ok (PList xs), st') ->
        get_top_losers W (Some k) use_cache st = (Ok (PList cut), st')).
Proof.
  intros W use_cache st st' xs k cut.
  assert (Hcut : limited (PList xs) (Some k) = Ok (PList cut)).
  { unfold limited, cut. destruct (k =? 0); [reflexivity |].
    apply py_slice_to_list. }
  split.
  - unfold get_top_gainers. rewrite !bind_run.
    unfold get_self at 1 2. cbv beta iota. rewrite !bind_run.
    match goal with
    | |- context [match ?m st with _ => _ end] =>
        destruct (m st) as [[data | e] st1]
    end; [| discriminate].
    rewrite !lift_run. change (limited data None) with (Ok data).
    intros [= -> ->]. now rewrite Hcut.
  - unfold get_top_losers. rewrite !bind_run.
    unfold get_self at 1 2. cbv beta iota. rewrite !bind_run.
    match goal with
    | |- context [match ?m st with _ => _ end] =>
        destruct (m st) as [[data | e] st1]
    end; [| discriminate].
    rewrite !lift_run. change (limited data None) with (Ok data).
    intros [= -> ->]. now rewrite Hcut.
Qed.

Lemma top_lists_limit_witness :
  let W := {| net := fun _ _ =>
                Ok {| status_code := 200;
                      body := Some (PList [PInt 1; PInt 2; PInt 3]) |};
              clock := fun _ => (5 # 1)%Q |} in
  get_top_gainers W (Some 2) false sample_state
  = (Ok (PList [PInt 1; PInt 2]),
     snd (get_top_gainers W None false sample_state)).
Proof.
  cbv zeta.
  apply (top_lists_limit
           {| net := fun _ _ =>
                Ok {| status_code := 200;
                      body := Some (PList [PInt 1; PInt 2; PInt 3]) |};
              clock := fun _ => (5 # 1)%Q |}
           false sample_state _ [PInt 1; PInt 2; PInt 3] 2).
  reflexivity.
Defined.

Lemma try_except_any_returns {O A} (m : M O A) (h : exn -> M O A)
      (st : State O) :
  (forall e st1, exists v st', h e st1 = (Ok v, st')) ->
  exists v st', try_except m any_exception h st = (Ok v, st').
Proof.
  intros Hh. unfold try_except.
  destruct (m st) as [[v | e] st1].
  - eauto.
  - cbn [any_exception]. apply Hh.
Qed.

Lemma cache_get_returns (W : World) (key : string) (st : State Nepse) :
  is_some (cache (self st)) = true ->
  exists v st', CacheManager_get W key st = (Ok v, st').
Proof.
  destruct st as [o h]. cbn [self]. intros Hc.
  unfold CacheManager_get, bind, get_self, time_time, modify_self, ret.
  cbn [self history].
  destruct (cache o) as [c |]; [| discriminate].
  destruct (dict_get (_cache c) key) as [[v exp] |]; [| eauto].
  cbn [self history].
  destruct (negb (Qle_bool exp (clock W h))); eauto.
Qed.

(** X18: without the cache in use ([use_cache] false, or a session built
    without cache) [get_nepse_index] and [get_price_volume] never raise;
    the live branch of [get_stocks] never raises, with or without
    cache. *)
Theorem uncached_methods_never_raise :
  forall (W : World) (get_today_price : string -> bool -> M Nepse pyval)
         (st : State Nepse) (use_cache : bool),
    (use_cache && is_some (cache (self st)) = false ->
     (exists v st', get_nepse_index W use_cache st = (Ok v, st'))
     /\ (exists v st', get_price_volume W use_cache st = (Ok v, st')))
    /\ (exists v st',
          get_stocks W get_today_price None use_cache st = (Ok v, st'))
    /\ (exists v st',
          get_stocks W get_today_price (Some "") use_cache st = (Ok v, st')).
Proof.
  intros W gtp st use_cache.
  assert (Hhandler : forall text (dflt : pyval) (e : exn) (st1 : State Nepse),
             exists v st',
               (log (EvPrint text (Some e)) ;;; ret dflt) st1 = (Ok v, st')).
  { intros. do 2 eexists. reflexivity. }
  assert (Hlive : exists v st',
             get_stocks W gtp None use_cache st = (Ok v, st')).
  { unfold get_stocks. rewrite bind_run.
    unfold get_self at 1. cbv beta iota. rewrite bind_run.
    destruct (use_cache && is_some (cache (self st))) eqn:G.
    - apply andb_true_iff in G. destruct G as [_ G].
      destruct (cache_get_returns W "live_market" st G) as (v & st1 & ->).
      destruct (negb (is_none v)).
      + do 2 eexists. reflexivity.
      + apply try_except_any_returns. intros e st2. apply Hhandler.
    - unfold ret at 1. cbv beta iota. cbn [is_none negb].
      apply try_except_any_returns. intros e st2. apply Hhandler. }
  split; [| split; [exact Hlive | exact Hlive]].
  intros G. split.
  - unfold get_nepse_index. rewrite bind_run.
    unfold get_self at 1. cbv beta iota. rewrite G.
    apply try_except_any_returns. intros e st1. apply Hhandler.
  - unfold get_price_volume. rewrite bind_run.
    unfold get_self at 1. cbv beta iota. rewrite G.
    apply try_except_any_returns. intros e st1. apply Hhandler.
Qed.

Lemma uncached_methods_never_raise_witness :
  exists v st',
    get_nepse_index sample_world false sample_state = (Ok v, st').
Proof.
  destruct (uncached_methods_never_raise sample_world
              (fun _ _ => ret PNone) sample_state false) as [H _].
  destruct (H eq_refl) as [Hindex _]. exact Hindex.
Defined.

(** X19: the same failing GET shows differently with and without the
    cache.  On a session that holds a token, [get_nepse_index] without
    the cache prints the error and returns the empty dict, while with the
    cache in use (and no entry yet) it raises the exception to the
    caller. *)
Theorem nepse_index_failure_with_and_without_cache :
  forall (W : World) (st : State Nepse) (c : CacheManager) (e : exn),
    cache (self st) = Some c ->
    dict_get (_cache c) "nepse_index" = None ->
    py_truthy (access_token (self st)) = true ->
    let req := get_request (self st) nepse_index_url in
    checked_json (net W (history st) req) = Raise e ->
    get_nepse_index W false st
    = (Ok (PDict []),
       extend st [EvRequest req;
                  EvPrint "Error fetching NEPSE index: " (Some e)])
    /\ get_nepse_index W true st = (Raise e, extend st [EvRequest req]).
Proof.
  intros W st c e Hc Hmiss Hheld req Hfail. split.
  - unfold get_nepse_index. rewrite bind_run.
    unfold get_self at 1. cbv beta iota. cbn [andb].
    unfold try_except. rewrite (fetch_held W st _ Hheld).
    fold req. rewrite Hfail. cbn. rewrite <- app_assoc. reflexivity.
  - unfold get_nepse_index. rewrite bind_run.
    unfold get_self at 1. cbv beta iota. rewrite Hc. cbn [andb is_some].
    rewrite (cached_get_miss W st c _ _ None Hc Hmiss Hheld).
    fold req. rewrite Hfail. reflexivity.
Qed.

Lemma nepse_index_failure_with_and_without_cache_witness :
  get_nepse_index sample_world false sample_cached_state
  = (Ok (PDict []),
     extend sample_cached_state
       [EvRequest (get_request (self sample_cached_state) nepse_index_url);
        EvPrint "Error fetching NEPSE index: " (Some ConnectionError)])
  /\ get_nepse_index sample_world true sample_cached_state
     = (Raise ConnectionError,
        extend sample_cached_state
          [EvRequest (get_request (self sample_cached_state)
                                  nepse_index_url)]).
Proof.
  apply (nepse_index_failure_with_and_without_cache sample_world
           sample_cached_state empty_cache ConnectionError);
    reflexivity.
Defined.



(** ** [MyNepseSession._get_dummy_id], [AsyncNepse.authenticate] and the
    payload id on a bad market status *)

(** X21: [MyNepseSession._get_dummy_id] returns the [id] of the market
    status as it is and has no default: when the status object has no
    [id] it raises [KeyError].  The status code of the answer is not
    looked at. *)
Theorem get_dummy_id_has_no_default :
  forall (W : World) (st : State MyNepseSession.t) (resp : response)
         (d : list (string * pyval)),
    py_truthy (MyNepseSession.access_token (self st)) = true ->
    let req := security_status_request (self st) in
    net W (history st) req = Ok resp ->
    body resp = Some (PDict d) ->
    MyNepseSession._get_dummy_id W st
    = match dict_get d "id" with
      | Some v => (Ok v, extend st [EvRequest req; EvClock])
      | None => (Raise (KeyError (PStr "id")), extend st [EvRequest req])
      end.
Proof.
  intros W [o h] resp d Hheld req Hnet Hbody. cbn [self history] in *.
  unfold MyNepseSession._get_dummy_id, MyNepseSession.get_market_status,
    MyNepseSession.get, MyNepseSession._get_auth_headers, bind, get_self,
    session_request, json, lift, time_time, ret, extend, py_getitem_str.
  cbn [self history]. rewrite Hheld. cbn [negb self history].
  change {| req_method := GET;
            req_url := (BASE_URL ++ "/api/nots/nepse-data/market-open")%string;
            req_headers := _; req_json := None |}
    with (security_status_request o).
  fold req. rewrite Hnet, Hbody.
  destruct (dict_get d "id") as [v |]; cbn [self history].
  - rewrite <- app_assoc. reflexivity.
  - reflexivity.
Qed.

Lemma get_dummy_id_has_no_default_witness :
  MyNepseSession._get_dummy_id idless_world sample_security_state
  = (Raise (KeyError (PStr "id")),
     extend sample_security_state
       [EvRequest (security_status_request (self sample_security_state))]).
Proof.
  apply (get_dummy_id_has_no_default idless_world sample_security_state
           {| status_code := 500;
              body := Some (PDict [("isOpen", PStr "CLOSE")]) |}
           [("isOpen", PStr "CLOSE")]);
    reflexivity.
Defined.



(** X23: when the market status that [_get_floorsheet_payload_id] fetched
    is no object, the method raises [AttributeError], and when its [id]
    is not integer-coercible it raises the exception of [int()]; in both
    cases before the salts are looked at, so that [authenticate()] is not
    called even when they are unset. *)
Theorem payload_id_bad_status :
  forall (W : World) (st st1 : State Nepse) (company_id day : Z)
         (status : pyval),
    get_market_status W true st = (Ok status, st1) ->
    match status with
    | PDict d =>
        forall e,
          py_int (match dict_get d "id" with
                  | Some v => v
                  | None => PInt 147
                  end) = Raise e ->
          _get_floorsheet_payload_id W company_id day st = (Raise e, st1)
    | _ =>
        _get_floorsheet_payload_id W company_id day st
        = (Raise (AttributeError "get"), st1)
    end.
Proof.
  intros W st st1 company_id day status Hstatus.
  unfold _get_floorsheet_payload_id.
  destruct status; try (rewrite bind_run, Hstatus; reflexivity).
  intros e He.
  rewrite bind_run, Hstatus.
  rewrite bind_run, lift_run. cbn [py_get].
  rewrite bind_run, lift_run, He. reflexivity.
Qed.

Lemma payload_id_bad_status_witness :
  _get_floorsheet_payload_id steady_world 0 12 saltless_state
  = (Raise (AttributeError "get"),
     snd (get_market_status steady_world true saltless_state)).
Proof.
  apply (payload_id_bad_status steady_world saltless_state
           (snd (get_market_status steady_world true saltless_state))
           0 12 (PList [PInt 1])).
  reflexivity.
Defined.

(** X24: without the cache in use [get_top_gainers] and [get_top_losers]
    do not look at the status of the answer: on a session that holds a
    token, whatever body decodes is returned, also under an error status
    for which [get_market_summary] raises [HTTPError]. *)
Theorem top_lists_ignore_status :
  forall (W : World) (st : State Nepse) (data : pyval),
    py_truthy (access_token (self st)) = true ->
    (forall url,
        exists resp,
          net W (history st) (get_request (self st) url) = Ok resp
          /\ (400 <=? status_code resp) && (status_code resp <? 600) = true
          /\ body resp = Some data) ->
    get_top_gainers W None false st
    = (Ok data, extend st [EvRequest (get_request (self st) top_gainer_url)])
    /\ get_top_losers W None false st
       = (Ok data, extend st [EvRequest (get_request (self st) top_loser_url)])
    /\ exists code,
         get_market_summary W false st
         = (Raise (HTTPError code),
            extend st [EvRequest (get_request (self st) market_summary_url)]).
Proof.
  intros W st data Hheld Hnet.
  split; [| split].
  - destruct (Hnet top_gainer_url) as (resp & Hr & _ & Hb).
    unfold get_top_gainers. rewrite bind_run.
    unfold get_self at 1. cbv beta iota. cbn [andb].
    rewrite bind_run, (fetch_unchecked_held W st _ Hheld), Hr.
    cbn [unchecked_json]. rewrite Hb. reflexivity.
  - destruct (Hnet top_loser_url) as (resp & Hr & _ & Hb).
    unfold get_top_losers. rewrite bind_run.
    unfold get_self at 1. cbv beta iota. cbn [andb].
    rewrite bind_run, (fetch_unchecked_held W st _ Hheld), Hr.
    cbn [unchecked_json]. rewrite Hb. reflexivity.
  - destruct (Hnet market_summary_url) as (resp & Hr & Hs & _).
    exists (status_code resp).
    unfold get_market_summary. rewrite bind_run.
    unfold get_self at 1. cbv beta iota. cbn [andb].
    rewrite (fetch_held W st _ Hheld), Hr.
    cbn [checked_json]. rewrite Hs. reflexivity.
Qed.

Lemma top_lists_ignore_status_witness :
  get_top_gainers idless_world None false sample_state
  = (Ok (PDict [("isOpen", PStr "CLOSE")]),
     extend sample_state
       [EvRequest (get_request (self sample_state) top_gainer_url)]).
Proof.
  apply (top_lists_ignore_status idless_world sample_state
           (PDict [("isOpen", PStr "CLOSE")])).
  - reflexivity.
  - intros url. eexists. repeat split; reflexivity.
Defined.
